(** * omni_content_validator: extraction, normalization and history diff

    A shallow embedding of the decision logic of
    [src/omni_content_validator/cli.py]: the issue locator
    ([_extract_by_path], [_collect_content_issues], [_extract_issues]), the
    issue normalizer ([_issue_identity], [_issue_summary],
    [_normalize_issues]) and the history differ ([_partition_issues]).

    Python values are dynamically typed, so the embedding works over one
    type [value] and every primitive that can raise in Python returns a
    [result].  The shell around the core ([_build_headers],
    [_validate_args], [_resolve_branch_id], [_fetch_validator_payload])
    follows, with the HTTP library as a parameter.  Argument parsing,
    files and the clock are not modelled. *)

From Stdlib Require Import ZArith List Ascii String DecimalString OrderedTypeEx.
From stdpp Require Import base tactics option list sets gmap strings sorting.

Local Open Scope string_scope.
Local Open Scope list_scope.

(** ** Python values *)

(** The values that reach the core: what [json.loads] produces ([None],
    [bool], [int], [float], [str], [list], [dict] with [str] keys), plus
    [VObject] for a Python object of a type [json.dumps] has no encoding
    for (a [set], [bytes], a class instance).

    - A [str] is a sequence of characters, one [ascii] per code point; the
      model covers the code points below 256, all of which UTF-8 encodes.
    - A [float] is identified with the text of its [repr] ([nan], [inf] and
      [-inf] for the three special values).
    - A [dict] keeps its items in insertion order; a well-formed one has no
      repeated key ([well_formed]).
    - A [VObject] carries what [str] and [repr] return for it.
    - Values are finite trees: no value contains itself. *)
#[warnings="-register-all"]
Inductive value : Type :=
| VNone
| VBool (b : bool)
| VInt (n : Z)
| VFloat (repr : string)
| VStr (s : string)
| VList (items : list value)
| VDict (items : list (string * value))
| VObject (str_text repr_text : string).

Abbreviation dict := (list (string * value)).

(** ** Exceptions *)

Inductive exn : Type := TypeError | KeyError | AttributeError.

Inductive result (A : Type) : Type :=
| Ok (a : A)
| Raise (e : exn).
Arguments Ok {A} a.
Arguments Raise {A} e.

Definition bind {A B} (m : result A) (k : A -> result B) : result B :=
  match m with
  | Ok a => k a
  | Raise e => Raise e
  end.

Notation "'let*' x := m 'in' k" := (bind m (fun x => k))
  (at level 10, x name, m at level 100, k at level 200).

(** [for x in l: body], the loop state threaded through the iterations. *)
Fixpoint for_each {S A} (body : S -> A -> result S) (l : list A) (s : S)
  : result S :=
  match l with
  | [] => Ok s
  | x :: l' => let* s' := body s x in for_each body l' s'
  end.

(** ** Built-ins on values *)

Definition isinstance_dict (v : value) : bool :=
  match v with VDict _ => true | _ => false end.

Definition isinstance_list (v : value) : bool :=
  match v with VList _ => true | _ => false end.

Definition isinstance_str (v : value) : bool :=
  match v with VStr _ => true | _ => false end.

Definition is_None (v : value) : bool :=
  match v with VNone => true | _ => false end.

(** Lookup of a key in the items of a dict. *)
Fixpoint dict_lookup (k : string) (d : dict) : option value :=
  match d with
  | [] => None
  | (k', v) :: d' => if String.eqb k k' then Some v else dict_lookup k d'
  end.

(** [d[k] = v]: an existing key keeps its place, a new one goes last. *)
Fixpoint dict_set (k : string) (v : value) (d : dict) : dict :=
  match d with
  | [] => [(k, v)]
  | (k', v') :: d' =>
      if String.eqb k k' then (k, v) :: d' else (k', v') :: dict_set k v d'
  end.

(** [{**d, k1: v1, ...}]: the items are set from left to right. *)
Definition dict_update (d items : dict) : dict :=
  fold_left (fun acc kv => dict_set (fst kv) (snd kv) acc) items d.

Definition dict_literal (items : dict) : dict := dict_update [] items.

(** [str.find(sub) != -1]. *)
Fixpoint is_substring (sub s : string) : bool :=
  String.prefix sub s ||
  match s with
  | EmptyString => false
  | String _ s' => is_substring sub s'
  end.

(** [k in c] for a [str] key [k]. *)
Definition py_in (k : string) (c : value) : result bool :=
  match c with
  | VDict d => Ok (bool_decide (is_Some (dict_lookup k d)))
  | VList l =>
      Ok (existsb (fun x => match x with VStr s => String.eqb s k | _ => false end) l)
  | VStr s => Ok (is_substring k s)
  | _ => Raise TypeError
  end.

(** [c[k]] for a [str] key [k]. *)
Definition py_getitem (c : value) (k : string) : result value :=
  match c with
  | VDict d =>
      match dict_lookup k d with
      | Some v => Ok v
      | None => Raise KeyError
      end
  | _ => Raise TypeError
  end.

(** [c.get(k, default)]: only a dict has the method. *)
Definition py_get_default (c : value) (k : string) (default : value)
  : result value :=
  match c with
  | VDict d =>
      match dict_lookup k d with
      | Some v => Ok v
      | None => Ok default
      end
  | _ => Raise AttributeError
  end.

(** [c.get(k)]. *)
Definition py_get (c : value) (k : string) : result value :=
  py_get_default c k VNone.

Definition chars (s : string) : list value :=
  map (fun c => VStr (String c EmptyString)) (list_ascii_of_string s).

(** What [for x in c] iterates over. *)
Definition py_iter (c : value) : result (list value) :=
  match c with
  | VList l => Ok l
  | VDict d => Ok (map (fun kv => VStr (fst kv)) d)
  | VStr s => Ok (chars s)
  | _ => Raise TypeError
  end.

(** ** Built-ins on strings *)

(** [str.isspace] on one character (code points below 256). *)
Definition is_space (c : ascii) : bool :=
  let n := N_of_ascii c in
  ((9 <=? n) && (n <=? 13) || (28 <=? n) && (n <=? 32)
   || (n =? 133) || (n =? 160))%N.

Fixpoint lstrip (s : string) : string :=
  match s with
  | EmptyString => EmptyString
  | String c s' => if is_space c then lstrip s' else s
  end.

Fixpoint rstrip (s : string) : string :=
  match s with
  | EmptyString => EmptyString
  | String c s' =>
      match rstrip s' with
      | EmptyString => if is_space c then EmptyString else String c EmptyString
      | r => String c r
      end
  end.

(** [s.strip()]. *)
Definition strip (s : string) : string := rstrip (lstrip s).

(** Truth value of a [list]. *)
Definition truthy_list {A} (l : list A) : bool :=
  match l with [] => false | _ => true end.

(** Truth value of a [str]. *)
Definition nonempty (s : string) : bool :=
  match s with EmptyString => false | _ => true end.

(** [s.split(sep)] for a one-character separator. *)
Fixpoint split (sep : ascii) (s : string) : list string :=
  match s with
  | EmptyString => [EmptyString]
  | String c s' =>
      if Ascii.eqb c sep then EmptyString :: split sep s'
      else match split sep s' with
           | [] => [String c EmptyString]
           | p :: ps => String c p :: ps
           end
  end.

(** [sep.join(l)]. *)
Definition join (sep : string) (l : list string) : string :=
  String.concat sep l.

(** [str(n)] for an [int]. *)
Definition str_of_int (n : Z) : string := NilZero.string_of_int (Z.to_int n).

(** ** Issue locator *)

(** The loop of [_extract_by_path] over the parts of the path: [Ok None]
    is the early [return None], [Ok (Some v)] the value the loop ends on. *)
Fixpoint walk_path (current : value) (parts : list string)
  : result (option value) :=
  match parts with
  | [] => Ok (Some current)
  | part :: parts' =>
      let* found :=
        (if isinstance_dict current then py_in part current else Ok false) in
      if found then
        let* current' := py_getitem current part in
        walk_path current' parts'
      else Ok None
  end.

(** [_extract_by_path(payload, path)]; the result is [VNone] or a list. *)
Definition _extract_by_path (payload : value) (path : option string)
  : result value :=
  match path with
  | None => Ok VNone
  | Some path =>
      if negb (nonempty path) then Ok VNone
      else
        let* r := walk_path payload (split "." path) in
        match r with
        | None => Ok VNone
        | Some current =>
            if isinstance_list current then Ok current else Ok VNone
        end
  end.

(** [message = item.get("message") if isinstance(item, dict) else item]. *)
Definition item_message (item : value) : result value :=
  if isinstance_dict item then py_get item "message" else Ok item.

(** The inner loop over [dashboard_filter_issues]. *)
Definition dashboard_item (doc_context : dict) (issues : list value)
  (item : value) : result (list value) :=
  let* message := item_message item in
  Ok (issues ++
      [VDict (dict_update
                (dict_literal [("message", message);
                               ("raw_issue", item);
                               ("issue_type", VStr "dashboard_filter")])
                doc_context)]).

(** The innermost loop over the [issues] of one query. *)
Definition query_item (query : value) (doc_context : dict)
  (issues : list value) (item : value) : result (list value) :=
  let* message := item_message item in
  let* query_name := py_get query "query_name" in
  let* query_presentation_id := py_get query "query_presentation_id" in
  Ok (issues ++
      [VDict (dict_update
                (dict_literal [("message", message);
                               ("raw_issue", item);
                               ("issue_type", VStr "query");
                               ("query_name", query_name);
                               ("query_presentation_id", query_presentation_id)])
                doc_context)]).

(** The loop over [queries_and_issues]. *)
Definition query_step (doc_context : dict) (issues : list value)
  (query : value) : result (list value) :=
  if negb (isinstance_dict query) then Ok issues
  else
    let* query_issues := py_get query "issues" in
    if isinstance_list query_issues then
      let* items := py_iter query_issues in
      for_each (query_item query doc_context) items issues
    else Ok issues.

(** [document.get("folder", {}).get(field)
     if isinstance(document.get("folder"), dict) else None]. *)
Definition folder_field (document : value) (field : string) : result value :=
  let* folder := py_get document "folder" in
  if isinstance_dict folder then
    let* folder' := py_get_default document "folder" (VDict []) in
    py_get folder' field
  else Ok VNone.

(** The [doc_context] literal of one document. *)
Definition doc_context_of (document : value) : result dict :=
  let* document_id := py_get document "document_id" in
  let* document_name := py_get document "name" in
  let* document_type := py_get document "type" in
  let* folder_name := folder_field document "name" in
  let* folder_path := folder_field document "path" in
  Ok (dict_literal [("document_id", document_id);
                    ("document_name", document_name);
                    ("document_type", document_type);
                    ("folder_name", folder_name);
                    ("folder_path", folder_path)]).

(** The outer loop over [content]. *)
Definition document_step (issues : list value) (document : value)
  : result (list value) :=
  if negb (isinstance_dict document) then Ok issues
  else
    let* doc_context := doc_context_of document in
    let* dashboard_issues := py_get document "dashboard_filter_issues" in
    let* issues :=
      (if isinstance_list dashboard_issues then
         let* items := py_iter dashboard_issues in
         for_each (dashboard_item doc_context) items issues
       else Ok issues) in
    let* queries := py_get document "queries_and_issues" in
    if negb (isinstance_list queries) then Ok issues
    else
      let* qs := py_iter queries in
      for_each (query_step doc_context) qs issues.

Definition _collect_content_issues (payload : value) : result (list value) :=
  let issues := [] in
  let* content := py_get payload "content" in
  if negb (isinstance_list content) then Ok issues
  else
    let* documents := py_iter content in
    for_each document_step documents issues.

(** [for key in keys: value = payload.get(key); if isinstance(value, list):
    return value]: [Ok (Some v)] is the [return], [Ok None] falling out of
    the loop. *)
Fixpoint first_list_key (payload : value) (keys : list string)
  : result (option value) :=
  match keys with
  | [] => Ok None
  | key :: keys' =>
      let* value := py_get payload key in
      if isinstance_list value then Ok (Some value)
      else first_list_key payload keys'
  end.

Definition _extract_issues (payload : value) (issues_path : option string)
  : result value :=
  let* by_path := _extract_by_path payload issues_path in
  if negb (is_None by_path) then Ok by_path
  else if isinstance_list payload then Ok payload
  else if negb (isinstance_dict payload) then Ok (VList [])
  else
    let* r := first_list_key payload ["issues"; "validation_issues"; "errors"] in
    match r with
    | Some value => Ok value
    | None =>
        let* r :=
          (let* has_content := py_in "content" payload in
           if has_content then
             let* collected := _collect_content_issues payload in
             if truthy_list collected then Ok (Some (VList collected))
             else Ok None
           else Ok None) in
        match r with
        | Some value => Ok value
        | None =>
            let* r :=
              first_list_key payload ["content"; "documents"; "items"; "results"] in
            match r with
            | Some value => Ok value
            | None => Ok (VList [])
            end
        end
    end.

(** ** [repr], [str] and [json.dumps] *)

Definition hex_digit (n : N) : ascii :=
  ascii_of_N (if (n <? 10)%N then 48 + n else 87 + n).

(** Two lower-case hexadecimal digits of a character code. *)
Definition hex2 (c : ascii) : string :=
  let n := N_of_ascii c in
  String (hex_digit (n / 16)) (String (hex_digit (n mod 16)) EmptyString).

Definition dquote : ascii := "034"%char.
Definition squote : ascii := "039"%char.
Definition backslash : ascii := "092"%char.

Definition contains_char (c : ascii) (s : string) : bool :=
  existsb (Ascii.eqb c) (list_ascii_of_string s).

(** [str.isprintable] on one character above the ASCII range. *)
Definition is_printable_high (n : N) : bool :=
  negb (((128 <=? n) && (n <=? 160)) || (n =? 173))%N.

(** One character of [repr(s)], inside the quotes [quote]. *)
Definition repr_char (quote c : ascii) : string :=
  let n := N_of_ascii c in
  if Ascii.eqb c quote || Ascii.eqb c backslash then
    String backslash (String c EmptyString)
  else if (n =? 9)%N then String backslash "t"
  else if (n =? 10)%N then String backslash "n"
  else if (n =? 13)%N then String backslash "r"
  else if ((n <? 32) || (n =? 127))%N then String backslash ("x" +:+ hex2 c)
  else if (n <? 127)%N then String c EmptyString
  else if is_printable_high n then String c EmptyString
  else String backslash ("x" +:+ hex2 c).

(** [repr(s)] for a [str]: single quotes, unless the text has a single
    quote and no double quote. *)
Definition repr_str (s : string) : string :=
  let quote :=
    if contains_char squote s && negb (contains_char dquote s)
    then dquote else squote in
  String quote
    (String.concat EmptyString (map (repr_char quote) (list_ascii_of_string s))
     +:+ String quote EmptyString).

Fixpoint py_repr (v : value) : string :=
  match v with
  | VNone => "None"
  | VBool true => "True"
  | VBool false => "False"
  | VInt n => str_of_int n
  | VFloat r => r
  | VStr s => repr_str s
  | VList l => "[" +:+ join ", " (map py_repr l) +:+ "]"
  | VDict d =>
      "{" +:+ join ", "
               (map (fun kv => let '(k, x) := kv in
                               repr_str k +:+ ": " +:+ py_repr x) d) +:+ "}"
  | VObject _ r => r
  end.

(** [str(v)]. *)
Definition py_str (v : value) : string :=
  match v with
  | VStr s => s
  | VObject s _ => s
  | _ => py_repr v
  end.

(** One character of a JSON string literal ([ensure_ascii=True]). *)
Definition json_char (c : ascii) : string :=
  let n := N_of_ascii c in
  if Ascii.eqb c dquote || Ascii.eqb c backslash then
    String backslash (String c EmptyString)
  else if (n =? 8)%N then String backslash "b"
  else if (n =? 9)%N then String backslash "t"
  else if (n =? 10)%N then String backslash "n"
  else if (n =? 12)%N then String backslash "f"
  else if (n =? 13)%N then String backslash "r"
  else if ((n <? 32) || (126 <? n))%N then String backslash ("u00" +:+ hex2 c)
  else String c EmptyString.

Definition json_str (s : string) : string :=
  String dquote
    (String.concat EmptyString (map json_char (list_ascii_of_string s))
     +:+ String dquote EmptyString).

(** A [float] in JSON text ([allow_nan=True]). *)
Definition json_float (r : string) : string :=
  if String.eqb r "nan" then "NaN"
  else if String.eqb r "inf" then "Infinity"
  else if String.eqb r "-inf" then "-Infinity"
  else r.

(** Sorting the items of a dict by key, as [sort_keys=True] does. *)
Fixpoint insert_by_key {A} (x : string * A) (l : list (string * A))
  : list (string * A) :=
  match l with
  | [] => [x]
  | y :: l' =>
      if String.leb (fst x) (fst y) then x :: l else y :: insert_by_key x l'
  end.

Definition sort_by_key {A} (l : list (string * A)) : list (string * A) :=
  fold_right insert_by_key [] l.

(** [json.dumps] raises [TypeError] on an object it has no encoding for. *)
Fixpoint serializable (v : value) : bool :=
  match v with
  | VObject _ _ => false
  | VList l => forallb serializable l
  | VDict d => forallb (fun kv => let '(_, x) := kv in serializable x) d
  | _ => true
  end.

(** The text [json.dumps] produces for a serializable value.  The items of
    a dict are encoded before they are sorted; the sort reads keys only. *)
Fixpoint json_encode (sort_keys : bool) (item_sep key_sep : string)
  (v : value) : string :=
  match v with
  | VNone => "null"
  | VBool true => "true"
  | VBool false => "false"
  | VInt n => str_of_int n
  | VFloat r => json_float r
  | VStr s => json_str s
  | VList l =>
      "[" +:+ join item_sep (map (json_encode sort_keys item_sep key_sep) l) +:+ "]"
  | VDict d =>
      let encoded :=
        map (fun kv => let '(k, x) := kv in
                       (k, json_encode sort_keys item_sep key_sep x)) d in
      let items := if sort_keys then sort_by_key encoded else encoded in
      "{" +:+ join item_sep
               (map (fun ks => json_str (fst ks) +:+ key_sep +:+ snd ks) items)
          +:+ "}"
  | VObject _ _ => EmptyString
  end.

(** [json.dumps(v, sort_keys=..., separators=(item_sep, key_sep))]. *)
Definition json_dumps (sort_keys : bool) (item_sep key_sep : string)
  (v : value) : result string :=
  if serializable v then Ok (json_encode sort_keys item_sep key_sep v)
  else Raise TypeError.

(** ** Issue normalizer *)

(** A normalized issue: the dict [{"id": .., "summary": .., "raw": ..}]. *)
Module Issue.
Record t : Type := Build { id : string; summary : string; raw : value }.
End Issue.

Abbreviation NormalizedIssue := Issue.t.

(** The loop over [("title", "name", "path", "field")] of [_issue_summary]. *)
Fixpoint first_text_key (issue : value) (keys : list string)
  : result (option string) :=
  match keys with
  | [] => Ok None
  | key :: keys' =>
      let* value := py_get issue key in
      match value with
      | VStr s =>
          if nonempty (strip s) then Ok (Some s)
          else first_text_key issue keys'
      | _ => first_text_key issue keys'
      end
  end.

(** [prefix_parts.append(name.strip())] under its guard. *)
Definition prefix_part (name : value) : list string :=
  match name with
  | VStr s => if nonempty (strip s) then [strip s] else []
  | _ => []
  end.

Definition _issue_summary (issue : value) : result string :=
  match issue with
  | VStr s => Ok s
  | VDict _ =>
      let* message := py_get issue "message" in
      let message :=
        if negb (is_None message) && negb (isinstance_str message)
        then VStr (py_str message) else message in
      let* r :=
        match message with
        | VStr m =>
            if nonempty (strip m) then
              let* doc_name := py_get issue "document_name" in
              let* query_name := py_get issue "query_name" in
              let prefix_parts :=
                (prefix_part doc_name ++ prefix_part query_name) in
              let prefix := join " / " prefix_parts in
              Ok (Some (if nonempty prefix then prefix +:+ ": " +:+ m else m))
            else Ok None
        | _ => Ok None
        end in
      match r with
      | Some summary => Ok summary
      | None =>
          let* r := first_text_key issue ["title"; "name"; "path"; "field"] in
          match r with
          | Some value => Ok value
          | None => json_dumps true ", " ": " issue
          end
      end
  | _ => Ok (py_str issue)
  end.

Section Normalizer.

(** [hashlib.sha256(s.encode("utf-8")).hexdigest()]: the hash is not
    part of the repository and is left abstract. *)
Variable sha256_hexdigest : string -> string.

(** The text that [_issue_identity] hashes. *)
Definition identity_input (issue : value) : result string :=
  match issue with
  | VStr s => Ok s
  | _ =>
      match json_dumps true "," ":" issue with
      | Raise TypeError => Ok (py_str issue)
      | r => r
      end
  end.

Definition _issue_identity (issue : value) : result string :=
  let* value := identity_input issue in
  Ok (sha256_hexdigest value).

(** The dict literal in the loop of [_normalize_issues]: the normalized
    form of one issue. *)
Definition normalize (issue : value) : result NormalizedIssue :=
  let* id := _issue_identity issue in
  let* summary := _issue_summary issue in
  Ok (Issue.Build id summary issue).

(** The body of the loop of [_normalize_issues]. *)
Definition normalize_step (normalized : list NormalizedIssue) (issue : value)
  : result (list NormalizedIssue) :=
  let* entry := normalize issue in
  Ok (normalized ++ [entry]).

Definition _normalize_issues (issues : value)
  : result (list NormalizedIssue) :=
  let normalized := [] in
  let* items := py_iter issues in
  for_each normalize_step items normalized.

End Normalizer.

(** ** History differ *)

Definition _partition_issues (current previous : list NormalizedIssue)
  : list NormalizedIssue * list NormalizedIssue * list NormalizedIssue :=
  let previous_ids : gset string := list_to_set (Issue.id <$> previous) in
  let current_ids : gset string := list_to_set (Issue.id <$> current) in
  let new_items := filter (fun item => Issue.id item ∉ previous_ids) current in
  let existing_items := filter (fun item => Issue.id item ∈ previous_ids) current in
  let resolved_items := filter (fun item => Issue.id item ∉ current_ids) previous in
  (new_items, existing_items, resolved_items).

(** ** The run *)

(** The counts and samples of the report [main] writes. *)
Record Report : Type := {
  total_issues : nat;
  new_issues : nat;
  existing_issues : nat;
  resolved_issues : nat;
  issues : list NormalizedIssue;
  new_issue_samples : list NormalizedIssue;
  existing_issue_samples : list NormalizedIssue;
  resolved_issue_samples : list NormalizedIssue
}.

Section Main.

Variable sha256_hexdigest : string -> string.

(** [main] from the fetched [payload] and the issues of the history file
    to the report and the exit status. *)
Definition main (payload : value) (issues_path : option string)
  (previous_issues : list NormalizedIssue) (fail_on_new_only : bool)
  : result (Report * Z) :=
  let* issues := _extract_issues payload issues_path in
  let* normalized := _normalize_issues sha256_hexdigest issues in
  let '(new_items, existing_items, resolved_items) :=
    _partition_issues normalized previous_issues in
  let report :=
    {| total_issues := length normalized;
       new_issues := length new_items;
       existing_issues := length existing_items;
       resolved_issues := length resolved_items;
       issues := normalized;
       new_issue_samples := take 20 new_items;
       existing_issue_samples := take 20 existing_items;
       resolved_issue_samples := take 20 resolved_items |} in
  if fail_on_new_only then
    Ok (report, if (0 <? new_issues report)%nat then 1%Z else 0%Z)
  else Ok (report, if (0 <? total_issues report)%nat then 1%Z else 0%Z).

End Main.

(** * The command-line shell *)

(** The functions around the core: checking the arguments, building the
    requests, looking a branch up by name and fetching the payload.  The
    HTTP library is a parameter: a request is answered by a response, and
    what [requests.get] itself may raise (no network, a timeout) is not
    modelled. *)

(** ** Outcomes *)

(** What interrupts the shell: an exception of a built-in operation, the
    [ValueError] of [response.json()], or [SystemExit] with its message. *)
Inductive raised : Type :=
| Builtin (e : exn)
| ValueError (msg : string)
| SystemExit (msg : string).

Inductive outcome (A : Type) : Type :=
| Return (a : A)
| Raised (r : raised).
Arguments Return {A} a.
Arguments Raised {A} r.

Definition lift {A} (m : result A) : outcome A :=
  match m with
  | Ok a => Return a
  | Raise e => Raised (Builtin e)
  end.

Definition obind {A B} (m : outcome A) (k : A -> outcome B) : outcome B :=
  match m with
  | Return a => k a
  | Raised r => Raised r
  end.

Notation "'let+' x := m 'in' k" := (obind m (fun x => k))
  (at level 10, x name, m at level 100, k at level 200).

(** ** Arguments, requests and responses *)

(** The namespace [_parse_args] returns.  The options without a default
    are a string or [None]; [branch_id] is a value because [main] stores
    in it whatever the branch lookup returned. *)
Module Args.
Record t : Type := Build {
  base_url : option string;
  model_id : option string;
  api_key : option string;
  user_id : option string;
  branch_id : value;
  branch_name : option string;
  auth_header : string;
  auth_scheme : string;
  issues_path : option string;
  timeout : Z;
  history_in : string;
  history_out : string;
  report_out : string;
  raw_response_out : option string;
  fail_on_new_only : bool
}.
End Args.

(** The arguments of [requests.get]. *)
Module Request.
Record t : Type := Build {
  url : string;
  headers : dict;
  params : dict;
  timeout : Z
}.
End Request.

(** What [response.json()] does: return the decoded body, or raise
    [ValueError] with a message. *)
Inductive body : Type :=
| Json (v : value)
| NotJson (error : string).

Module Response.
Record t : Type := Build {
  ok : bool;
  status_code : Z;
  text : string;
  json : body
}.
End Response.

(** ** Built-ins of the shell *)

(** Truth value of a string or [None]. *)
Definition truthy_opt (o : option string) : bool :=
  match o with
  | Some s => nonempty s
  | None => false
  end.

(** Truth value of a value; an object of another type counts as true. *)
Definition truthy (v : value) : bool :=
  match v with
  | VNone => false
  | VBool b => b
  | VInt n => negb (n =? 0)%Z
  | VFloat r => negb (String.eqb r "0.0" || String.eqb r "-0.0")
  | VStr s => nonempty s
  | VList l => truthy_list l
  | VDict d => truthy_list d
  | VObject _ _ => true
  end.

(** A string or [None] as a value. *)
Definition value_of_opt (o : option string) : value :=
  match o with
  | Some s => VStr s
  | None => VNone
  end.

(** What an f-string prints for a string or [None]. *)
Definition format_opt (o : option string) : string :=
  py_str (value_of_opt o).

(** [v == s] for a string [s]. *)
Definition py_eq_str (v : value) (s : string) : bool :=
  match v with
  | VStr s' => String.eqb s' s
  | _ => false
  end.

(** [v == o] for a string or [None]. *)
Definition py_eq_opt (v : value) (o : option string) : bool :=
  match o with
  | Some s => py_eq_str v s
  | None => is_None v
  end.

(** [s.rstrip(c)] for one character [c]. *)
Fixpoint rstrip_char (c : ascii) (s : string) : string :=
  match s with
  | EmptyString => EmptyString
  | String a s' =>
      match rstrip_char c s' with
      | EmptyString => if Ascii.eqb a c then EmptyString else String a EmptyString
      | r => String a r
      end
  end.

(** ** Headers and validation *)

Definition _build_headers (api_key : option string)
  (auth_header auth_scheme : string) : dict :=
  let token_value :=
    if nonempty auth_scheme
    then VStr (strip (auth_scheme +:+ " " +:+ format_opt api_key))
    else value_of_opt api_key in
  dict_literal [(auth_header, token_value)].

Definition _validate_args (args : Args.t) : outcome unit :=
  let missing := [] in
  let missing :=
    if negb (truthy_opt (Args.base_url args))
    then missing ++ ["--base-url or OMNI_BASE_URL"] else missing in
  let missing :=
    if negb (truthy_opt (Args.model_id args))
    then missing ++ ["--model-id or OMNI_MODEL_ID"] else missing in
  let missing :=
    if negb (truthy_opt (Args.api_key args))
    then missing ++ ["--api-key or OMNI_API_KEY"] else missing in
  if truthy_list missing
  then Raised (SystemExit ("Missing required values: " +:+ join ", " missing))
  else Return tt.

(** [args.base_url.rstrip("/")]: [None] has no such method. *)
Definition base_of (args : Args.t) : outcome string :=
  match Args.base_url args with
  | Some b => Return (rstrip_char "/" b)
  | None => Raised (Builtin AttributeError)
  end.

Section Shell.

(** [requests.get(url, headers=..., params=..., timeout=...)]. *)
Variable requests_get : Request.t -> Response.t.

Definition _fetch_validator_payload (args : Args.t) : outcome value :=
  let+ base := base_of args in
  let url :=
    base +:+ "/api/v1/models/" +:+ format_opt (Args.model_id args)
         +:+ "/content-validator" in
  let headers :=
    _build_headers (Args.api_key args) (Args.auth_header args)
                   (Args.auth_scheme args) in
  let params := [] in
  let params :=
    if truthy_opt (Args.user_id args)
    then dict_set "userId" (value_of_opt (Args.user_id args)) params
    else params in
  let params :=
    if truthy (Args.branch_id args)
    then dict_set "branch_id" (Args.branch_id args) params
    else params in
  let response :=
    requests_get (Request.Build url headers params (Args.timeout args)) in
  if negb (Response.ok response) then
    Raised (SystemExit ("Content validator failed: "
                        +:+ str_of_int (Response.status_code response)
                        +:+ " " +:+ Response.text response))
  else
    match Response.json response with
    | NotJson exc =>
        Raised (SystemExit ("Content validator did not return JSON: " +:+ exc))
    | Json payload => Return payload
    end.

(** The loop over the records of one page: [Some v] is [return v], [None]
    falling out of the loop. *)
Fixpoint find_branch (args : Args.t) (records : list value)
  : outcome (option value) :=
  match records with
  | [] => Return None
  | record :: records' =>
      let+ kind := lift (py_get record "modelKind") in
      if negb (py_eq_str kind "BRANCH") then find_branch args records'
      else
        let+ base := lift (py_get record "baseModelId") in
        if negb (py_eq_opt base (Args.model_id args))
        then find_branch args records'
        else
          let+ name := lift (py_get record "name") in
          if negb (py_eq_opt name (Args.branch_name args))
          then find_branch args records'
          else
            let+ id := lift (py_get record "id") in
            Return (Some id)
  end.

(** One turn of the [while True] loop: the function returns, or goes on
    with the next cursor. *)
Inductive turn : Type :=
| Returns (r : outcome value)
| Continues (cursor : value).

Definition branch_page (args : Args.t) (headers : dict) (cursor : value)
  : turn :=
  let params := [] in
  let params :=
    if truthy cursor then dict_set "cursor" cursor params else params in
  match base_of args with
  | Raised r => Returns (Raised r)
  | Return base =>
      let url := base +:+ "/api/v1/models" in
      let response :=
        requests_get (Request.Build url headers params (Args.timeout args)) in
      if negb (Response.ok response) then
        Returns (Raised (SystemExit
                   ("Branch lookup failed: "
                    +:+ str_of_int (Response.status_code response)
                    +:+ " " +:+ Response.text response)))
      else
        match Response.json response with
        | NotJson exc => Returns (Raised (ValueError exc))
        | Json payload =>
            match (let+ records :=
                     lift (py_get_default payload "records" (VList [])) in
                   let+ items := lift (py_iter records) in
                   find_branch args items) with
            | Raised r => Returns (Raised r)
            | Return (Some id) => Returns (Return id)
            | Return None =>
                match (let+ page_info :=
                         lift (py_get_default payload "pageInfo" (VDict [])) in
                       lift (py_get page_info "nextCursor")) with
                | Raised r => Returns (Raised r)
                | Return cursor' =>
                    if negb (truthy cursor') then Returns (Return VNone)
                    else Continues cursor'
                end
            end
        end
  end.

(** The [while True] loop, for at most [fuel] requests; [None] when the
    loop is still running after them. *)
Fixpoint branch_loop (fuel : nat) (args : Args.t) (headers : dict)
  (cursor : value) : option (outcome value) :=
  match fuel with
  | O => None
  | S fuel' =>
      match branch_page args headers cursor with
      | Returns r => Some r
      | Continues cursor' => branch_loop fuel' args headers cursor'
      end
  end.

Definition _resolve_branch_id (fuel : nat) (args : Args.t)
  : option (outcome value) :=
  if truthy (Args.branch_id args) then Some (Return (Args.branch_id args))
  else if negb (truthy_opt (Args.branch_name args)) then Some (Return VNone)
  else
    let headers :=
      _build_headers (Args.api_key args) (Args.auth_header args)
                     (Args.auth_scheme args) in
    let cursor := VNone in
    branch_loop fuel args headers cursor.

(** [args.branch_id = v]. *)
Definition set_branch_id (v : value) (args : Args.t) : Args.t :=
  Args.Build (Args.base_url args) (Args.model_id args) (Args.api_key args)
             (Args.user_id args) v (Args.branch_name args)
             (Args.auth_header args) (Args.auth_scheme args)
             (Args.issues_path args) (Args.timeout args)
             (Args.history_in args) (Args.history_out args)
             (Args.report_out args) (Args.raw_response_out args)
             (Args.fail_on_new_only args).

(** [main] from the parsed arguments to the fetched payload, with the
    lines it prints on the way. *)
Definition main_payload (fuel : nat) (args : Args.t)
  : option (outcome (list string * value)) :=
  match _validate_args args with
  | Raised r => Some (Raised r)
  | Return _ =>
      match _resolve_branch_id fuel args with
      | None => None
      | Some (Raised r) => Some (Raised r)
      | Some (Return resolved_branch_id) =>
          let '(args, printed) :=
            if truthy resolved_branch_id then
              (set_branch_id resolved_branch_id args,
               if truthy_opt (Args.branch_name args)
               then ["Resolved branch '" +:+ format_opt (Args.branch_name args)
                     +:+ "' to id " +:+ py_str resolved_branch_id]
               else ["Using branch id " +:+ py_str resolved_branch_id])
            else if truthy_opt (Args.branch_name args) then
              (args,
               ["No matching Omni branch found for '"
                +:+ format_opt (Args.branch_name args) +:+ "', using default"])
            else (args, []) in
          Some (let+ payload := _fetch_validator_payload args in
                Return (printed, payload))
      end
  end.

End Shell.

(** * Specification-side definitions *)

Definition keys (d : dict) : list string := map fst d.

(** [d.get(k)] on the items of a dict. *)
Definition get (d : dict) (k : string) : value :=
  default VNone (dict_lookup k d).

(** ** Locator, as the specification words it *)

(** Rule 1: the path is followed one field name at a time, through
    objects only; [resolves payload parts v] when the traversal completes
    at [v]. *)
Inductive resolves : value -> list string -> value -> Prop :=
| resolves_done v : resolves v [] v
| resolves_step d part parts v' v :
    dict_lookup part d = Some v' ->
    resolves v' parts v ->
    resolves (VDict d) (part :: parts) v.

(** Rules 4 and 6: the first of [ks], in that order, whose value in [d] is
    a sequence. *)
Fixpoint first_sequence (d : dict) (ks : list string) : option (list value) :=
  match ks with
  | [] => None
  | k :: ks' =>
      match dict_lookup k d with
      | Some (VList l) => Some l
      | _ => first_sequence d ks'
      end
  end.

(** The context record of a document. *)
Definition context_of (doc : dict) : dict :=
  let folder field :=
    match dict_lookup "folder" doc with
    | Some (VDict f) => get f field
    | _ => VNone
    end in
  [("document_id", get doc "document_id");
   ("document_name", get doc "name");
   ("document_type", get doc "type");
   ("folder_name", folder "name");
   ("folder_path", folder "path")].

(** The message of an item: the [message] field of an object, the item
    itself otherwise. *)
Definition message_of (item : value) : value :=
  match item with
  | VDict i => get i "message"
  | _ => item
  end.

Definition dashboard_record (ctx : dict) (item : value) : value :=
  VDict ([("message", message_of item);
          ("raw_issue", item);
          ("issue_type", VStr "dashboard_filter")] ++ ctx).

Definition query_record (ctx q : dict) (item : value) : value :=
  VDict ([("message", message_of item);
          ("raw_issue", item);
          ("issue_type", VStr "query");
          ("query_name", get q "query_name");
          ("query_presentation_id", get q "query_presentation_id")] ++ ctx).

(** The issues of one query; a query that is not an object has none, and
    neither has one whose [issues] is not a sequence. *)
Definition query_issues (ctx : dict) (query : value) : list value :=
  match query with
  | VDict q =>
      match dict_lookup "issues" q with
      | Some (VList items) => map (query_record ctx q) items
      | _ => []
      end
  | _ => []
  end.

(** The issues of one document: the dashboard-filter issues, then those of
    its queries; a document that is not an object has none. *)
Definition document_issues (document : value) : list value :=
  match document with
  | VDict doc =>
      let ctx := context_of doc in
      (match dict_lookup "dashboard_filter_issues" doc with
       | Some (VList items) => map (dashboard_record ctx) items
       | _ => []
       end ++
       match dict_lookup "queries_and_issues" doc with
       | Some (VList queries) => flat_map (query_issues ctx) queries
       | _ => []
       end)
  | _ => []
  end.

(** Document-tree extraction over the [content] of a payload. *)
Definition document_tree (d : dict) : list value :=
  match dict_lookup "content" d with
  | Some (VList documents) => flat_map document_issues documents
  | _ => []
  end.

(** Rules 4 to 7 on an object payload. *)
Definition locate_object (d : dict) : list value :=
  match first_sequence d ["issues"; "validation_issues"; "errors"] with
  | Some l => l
  | None =>
      match document_tree d with
      | (_ :: _) as tree => tree
      | [] =>
          default []
            (first_sequence d ["content"; "documents"; "items"; "results"])
      end
  end.

(** Rule 7: no rule of the locator applies to [payload] under [path]. *)
Definition no_rule_matches (payload : value) (path : option string) : Prop :=
  (forall p l, path = Some p -> p <> EmptyString ->
               ~ resolves payload (split "." p) (VList l)) /\
  isinstance_list payload = false /\
  (forall d, payload = VDict d ->
     first_sequence d ["issues"; "validation_issues"; "errors"] = None /\
     document_tree d = [] /\
     first_sequence d ["content"; "documents"; "items"; "results"] = None).

(** ** Normalizer, as the specification words it *)

(** The order [sort_keys=True] sorts the items of a dict by. *)
Definition key_le {A} (x y : string * A) : Prop :=
  String.leb (fst x) (fst y) = true.

(** The canonical serialization of a raw issue: the string itself for a
    string, otherwise JSON text with sorted keys and no whitespace; there
    is none for a value that cannot be serialized. *)
Definition canonical_serialization (raw : value) : option string :=
  match raw with
  | VStr s => Some s
  | _ =>
      if serializable raw then Some (json_encode true "," ":" raw) else None
  end.

(** A value all of whose dicts, at any depth, have no repeated key. *)
#[warnings="-register-all"]
Inductive well_formed : value -> Prop :=
| wf_None : well_formed VNone
| wf_Bool b : well_formed (VBool b)
| wf_Int n : well_formed (VInt n)
| wf_Float r : well_formed (VFloat r)
| wf_Str s : well_formed (VStr s)
| wf_List l : Forall well_formed l -> well_formed (VList l)
| wf_Dict d :
    NoDup (keys d) ->
    Forall (fun kv => well_formed (snd kv)) d ->
    well_formed (VDict d)
| wf_Object s r : well_formed (VObject s r).

(** Structural equality up to the insertion order of the keys of dicts, at
    any depth. *)
#[warnings="-register-all"]
Inductive same_content : value -> value -> Prop :=
| same_refl v : same_content v v
| same_List l1 l2 :
    Forall2 same_content l1 l2 -> same_content (VList l1) (VList l2)
| same_Dict d1 d d2 :
    d1 ≡ₚ d ->
    Forall2 (fun kv1 kv2 => fst kv1 = fst kv2 /\
                            same_content (snd kv1) (snd kv2)) d d2 ->
    same_content (VDict d1) (VDict d2).

(** The [message] of an object issue as [_issue_summary] reads it: absent
    when missing or [None], else coerced to a string. *)
Definition coerced_message (d : dict) : option string :=
  match dict_lookup "message" d with
  | None | Some VNone => None
  | Some (VStr m) => Some m
  | Some v => Some (py_str v)
  end.

(** Rule 2 of the summary with non-empty taken literally: a field counts
    when it is a string other than the empty one, and is used as it is. *)
Definition nonempty_field (d : dict) (k : string) : list string :=
  match dict_lookup k d with
  | Some (VStr s) => if nonempty s then [s] else []
  | _ => []
  end.

Definition prefixed (parts : list string) (m : string) : string :=
  match parts with
  | [] => m
  | _ => join " / " parts +:+ ": " +:+ m
  end.

Definition summary_as_claimed (d : dict) : option string :=
  match coerced_message d with
  | Some m =>
      if nonempty m then
        Some (prefixed (nonempty_field d "document_name" ++
                        nonempty_field d "query_name") m)
      else None
  | None => None
  end.

(** Rule 2 of the summary with non-empty read as not blank: a field counts
    when it is a string with a character that is not white space, and is
    used stripped. *)
Definition stripped_field (d : dict) (k : string) : list string :=
  match dict_lookup k d with
  | Some (VStr s) => if nonempty (strip s) then [strip s] else []
  | _ => []
  end.

Definition summary_with_message (d : dict) (m : string) : string :=
  prefixed (stripped_field d "document_name" ++ stripped_field d "query_name") m.

(** ** Further specification-side definitions *)

(** A string with a character that is not white space. *)
Definition has_ink (s : string) : bool :=
  existsb (fun c => negb (is_space c)) (list_ascii_of_string s).

(** Rule 3 of the summary: the first of [ks] whose value in [d] is a
    string that is not blank. *)
Fixpoint first_text (d : dict) (ks : list string) : option string :=
  match ks with
  | [] => None
  | k :: ks' =>
      match dict_lookup k d with
      | Some (VStr s) => if has_ink s then Some s else first_text d ks'
      | _ => first_text d ks'
      end
  end.

(** The keys of a collected issue, in order. *)
Definition dashboard_keys : list string :=
  ["message"; "raw_issue"; "issue_type"; "document_id"; "document_name";
   "document_type"; "folder_name"; "folder_path"].

Definition query_keys : list string :=
  ["message"; "raw_issue"; "issue_type"; "query_name";
   "query_presentation_id"; "document_id"; "document_name";
   "document_type"; "folder_name"; "folder_path"].

(** The shape of a collected issue: an object with the keys of its kind in
    a fixed order, whose [message] is read from its [raw_issue]. *)
Definition collected_shape (r : value) : Prop :=
  exists fields,
    r = VDict fields /\
    (keys fields = dashboard_keys /\
       dict_lookup "issue_type" fields = Some (VStr "dashboard_filter") \/
     keys fields = query_keys /\
       dict_lookup "issue_type" fields = Some (VStr "query")) /\
    get fields "message" = message_of (get fields "raw_issue").

(** A string that begins, or ends, with a character that is not white
    space. *)
Definition starts_with_ink (s : string) : bool :=
  match s with
  | String c _ => negb (is_space c)
  | EmptyString => false
  end.

Fixpoint ends_with_ink (s : string) : bool :=
  match s with
  | EmptyString => false
  | String c EmptyString => negb (is_space c)
  | String _ s' => ends_with_ink s'
  end.

(** ** The shell, in other words *)

(** [args] with another base URL, and with another branch name. *)
Definition set_base_url (b : option string) (args : Args.t) : Args.t :=
  Args.Build b (Args.model_id args) (Args.api_key args)
             (Args.user_id args) (Args.branch_id args) (Args.branch_name args)
             (Args.auth_header args) (Args.auth_scheme args)
             (Args.issues_path args) (Args.timeout args)
             (Args.history_in args) (Args.history_out args)
             (Args.report_out args) (Args.raw_response_out args)
             (Args.fail_on_new_only args).

Definition set_branch_name (n : option string) (args : Args.t) : Args.t :=
  Args.Build (Args.base_url args) (Args.model_id args) (Args.api_key args)
             (Args.user_id args) (Args.branch_id args) n
             (Args.auth_header args) (Args.auth_scheme args)
             (Args.issues_path args) (Args.timeout args)
             (Args.history_in args) (Args.history_out args)
             (Args.report_out args) (Args.raw_response_out args)
             (Args.fail_on_new_only args).

(** The request of the branch lookup for one page. *)
Definition branch_request (args : Args.t) (base : string) (cursor : value)
  : Request.t :=
  Request.Build (base +:+ "/api/v1/models")
    (_build_headers (Args.api_key args) (Args.auth_header args)
                    (Args.auth_scheme args))
    (if truthy cursor then [("cursor", cursor)] else [])
    (Args.timeout args).

(** A record of the listing that is the branch looked for. *)
Definition record_matches (args : Args.t) (r : dict) : bool :=
  py_eq_str (get r "modelKind") "BRANCH" &&
  py_eq_opt (get r "baseModelId") (Args.model_id args) &&
  py_eq_opt (get r "name") (Args.branch_name args).

(** Records that are objects, none of them the branch looked for. *)
Definition no_match (args : Args.t) (records : list value) : Prop :=
  Forall (fun x => exists r, x = VDict r /\ record_matches args r = false)
         records.

(** A page that holds no match and names a next page. *)
Definition page_goes_on (args : Args.t) (response : Response.t) : Prop :=
  Response.ok response = true /\
  exists p records page_info cursor,
    Response.json response = Json (VDict p) /\
    dict_lookup "records" p = Some (VList records) /\
    no_match args records /\
    dict_lookup "pageInfo" p = Some (VDict page_info) /\
    dict_lookup "nextCursor" page_info = Some cursor /\
    truthy cursor = true.

(** * Properties *)

(** Induction over [value] that reaches inside lists and dicts. *)
Lemma value_ind' (P : value -> Prop)
  (HNone : P VNone)
  (HBool : forall b, P (VBool b))
  (HInt : forall n, P (VInt n))
  (HFloat : forall r, P (VFloat r))
  (HStr : forall s, P (VStr s))
  (HList : forall l, Forall P l -> P (VList l))
  (HDict : forall d, Forall (fun kv => P (snd kv)) d -> P (VDict d))
  (HObject : forall s r, P (VObject s r)) :
  forall v, P v.
Proof.
  fix IH 1. intros [| b | n | r | s | l | d | s r].
  - exact HNone.
  - exact (HBool b).
  - exact (HInt n).
  - exact (HFloat r).
  - exact (HStr s).
  - apply HList. induction l as [| x l IHl]; constructor.
    + exact (IH x).
    + exact IHl.
  - apply HDict. induction d as [| [k x] d IHd]; constructor.
    + exact (IH x).
    + exact IHd.
  - exact (HObject s r).
Qed.

(** ** The error monad and the loops *)

(** A loop whose body only appends to the state appends, in order, what
    each element contributes. *)
Lemma for_each_append {A B} (body : list B -> A -> result (list B))
    (f : A -> list B) :
  (forall s x, body s x = Ok (s ++ f x)) ->
  forall l s, for_each body l s = Ok (s ++ flat_map f l).
Proof.
  intros Hbody l. induction l as [| x l IH]; intros s; simpl.
  - by rewrite app_nil_r.
  - rewrite Hbody. simpl. rewrite IH. by rewrite app_assoc.
Qed.

(** ** Dicts *)

Lemma py_get_dict (d : dict) (k : string) :
  py_get (VDict d) k = Ok (get d k).
Proof. unfold py_get, py_get_default, get. by destruct (dict_lookup k d). Qed.

Lemma py_in_dict (d : dict) (k : string) :
  py_in k (VDict d) = Ok (bool_decide (is_Some (dict_lookup k d))).
Proof. reflexivity. Qed.

Lemma dict_lookup_set_eq (d : dict) (k : string) (v : value) :
  dict_lookup k (dict_set k v d) = Some v.
Proof.
  induction d as [| [k' v'] d IH]; simpl.
  - by rewrite String.eqb_refl.
  - destruct (String.eqb_spec k k') as [-> | Hne]; simpl.
    + by rewrite String.eqb_refl.
    + by destruct (String.eqb_spec k k').
Qed.

Lemma dict_lookup_set_ne (d : dict) (k k' : string) (v : value) :
  k <> k' -> dict_lookup k' (dict_set k v d) = dict_lookup k' d.
Proof.
  intros Hne. induction d as [| [k0 v0] d IH]; simpl.
  - by destruct (String.eqb_spec k' k) as [-> | ?].
  - destruct (String.eqb_spec k k0) as [-> | Hne0]; simpl.
    + by destruct (String.eqb_spec k' k0) as [-> | ?].
    + by rewrite IH.
Qed.


(** ** Locator: the explicit path *)

Lemma walk_path_dict (d : dict) (part : string) (parts : list string) :
  walk_path (VDict d) (part :: parts) =
  match dict_lookup part d with
  | Some v => walk_path v parts
  | None => Ok None
  end.
Proof.
  simpl. destruct (dict_lookup part d) as [v |] eqn:E.
  - rewrite bool_decide_eq_true_2 by eauto. reflexivity.
  - rewrite bool_decide_eq_false_2 by (intros [v Hv]; discriminate).
    reflexivity.
Qed.

Lemma walk_path_not_dict (current : value) (part : string) (parts : list string) :
  isinstance_dict current = false ->
  walk_path current (part :: parts) = Ok None.
Proof. intros H. simpl. by rewrite H. Qed.

(** The loop of [_extract_by_path] never raises. *)
Lemma walk_path_ok (parts : list string) (current : value) :
  exists r, walk_path current parts = Ok r.
Proof.
  revert current. induction parts as [| part parts IH]; intros current.
  - by exists (Some current).
  - destruct (isinstance_dict current) eqn:Hd.
    + destruct current; try discriminate.
      rewrite walk_path_dict. destruct (dict_lookup part items); eauto.
    + rewrite walk_path_not_dict by done. eauto.
Qed.

Lemma walk_path_resolves (current : value) (parts : list string) (v : value) :
  resolves current parts v -> walk_path current parts = Ok (Some v).
Proof.
  induction 1 as [v | d part parts v' v Hlook _ IH]; [done |].
  by rewrite walk_path_dict, Hlook.
Qed.

Lemma walk_path_Some (parts : list string) (current v : value) :
  walk_path current parts = Ok (Some v) -> resolves current parts v.
Proof.
  revert current. induction parts as [| part parts IH]; intros current.
  - intros [= ->]. constructor.
  - destruct (isinstance_dict current) eqn:Hd.
    + destruct current; try discriminate.
      rewrite walk_path_dict.
      destruct (dict_lookup part items) as [v' |] eqn:E; [| done].
      intros H. econstructor; eauto.
    + by rewrite walk_path_not_dict.
Qed.

(** [_extract_by_path] returns [None] or a list, and never raises. *)
Lemma _extract_by_path_cases (payload : value) (path : option string) :
  _extract_by_path payload path = Ok VNone \/
  exists l, _extract_by_path payload path = Ok (VList l).
Proof.
  destruct path as [path |]; [| by left].
  unfold _extract_by_path. destruct (nonempty path); [| by left].
  destruct (walk_path_ok (split "." path) payload) as [[current |] ->];
    simpl; [| by left].
  destruct current; simpl; eauto.
Qed.

Lemma _extract_by_path_resolves (payload : value) (path : string)
    (l : list value) :
  path <> EmptyString ->
  resolves payload (split "." path) (VList l) ->
  _extract_by_path payload (Some path) = Ok (VList l).
Proof.
  intros Hne Hres. unfold _extract_by_path.
  destruct path; [done |]. simpl nonempty. cbn [negb].
  by rewrite (walk_path_resolves _ _ _ Hres).
Qed.

Lemma _extract_issues_by_path (payload : value) (path : option string)
    (l : list value) :
  _extract_by_path payload path = Ok (VList l) ->
  _extract_issues payload path = Ok (VList l).
Proof. intros H. unfold _extract_issues. by rewrite H. Qed.

Lemma _extract_issues_no_path (payload : value) (path : option string) :
  _extract_by_path payload path = Ok VNone ->
  _extract_issues payload path = _extract_issues payload None.
Proof. intros H. unfold _extract_issues. by rewrite H. Qed.

(** ** Locator: document-tree extraction *)

Lemma item_message_eq (item : value) :
  item_message item = Ok (message_of item).
Proof.
  unfold item_message. destruct item; try reflexivity. apply py_get_dict.
Qed.

Lemma dashboard_item_eq (doc : dict) (issues : list value) (item : value) :
  dashboard_item (context_of doc) issues item =
  Ok (issues ++ [dashboard_record (context_of doc) item]).
Proof. unfold dashboard_item. by rewrite item_message_eq. Qed.

Lemma query_item_eq (doc q : dict) (issues : list value) (item : value) :
  query_item (VDict q) (context_of doc) issues item =
  Ok (issues ++ [query_record (context_of doc) q item]).
Proof.
  unfold query_item. by rewrite item_message_eq, !py_get_dict.
Qed.

Lemma flat_map_singleton {A B} (f : A -> B) (l : list A) :
  flat_map (fun x => [f x]) l = map f l.
Proof. induction l as [| x l IH]; simpl; by rewrite ?IH. Qed.

Lemma query_step_eq (doc : dict) (issues : list value) (query : value) :
  query_step (context_of doc) issues query =
  Ok (issues ++ query_issues (context_of doc) query).
Proof.
  unfold query_step, query_issues.
  destruct query as [| | | | | | q |]; try (cbn; by rewrite app_nil_r).
  cbn [isinstance_dict negb]. rewrite py_get_dict. unfold get.
  destruct (dict_lookup "issues" q) as [[| | | | | items | |] |];
    try (cbn; by rewrite app_nil_r).
  cbn.
  rewrite (for_each_append _ (fun item => [query_record (context_of doc) q item])).
  - by rewrite flat_map_singleton.
  - intros. apply query_item_eq.
Qed.

Lemma folder_field_eq (doc : dict) (field : string) :
  folder_field (VDict doc) field =
  Ok match dict_lookup "folder" doc with
     | Some (VDict f) => get f field
     | _ => VNone
     end.
Proof.
  unfold folder_field. rewrite py_get_dict. unfold get, py_get_default.
  destruct (dict_lookup "folder" doc) as [[| | | | | | f |] |] eqn:E;
    try done.
  cbn. apply py_get_dict.
Qed.

Lemma doc_context_of_eq (doc : dict) :
  doc_context_of (VDict doc) = Ok (context_of doc).
Proof.
  unfold doc_context_of. by rewrite !py_get_dict, !folder_field_eq.
Qed.

Lemma document_step_eq (issues : list value) (document : value) :
  document_step issues document = Ok (issues ++ document_issues document).
Proof.
  unfold document_step, document_issues.
  destruct document as [| | | | | | doc |]; try (cbn; by rewrite app_nil_r).
  cbn [isinstance_dict negb].
  rewrite doc_context_of_eq, !py_get_dict. cbn [bind]. unfold get.
  assert (Hdash :
    (if isinstance_list (default VNone (dict_lookup "dashboard_filter_issues" doc))
     then let* items := py_iter (default VNone (dict_lookup "dashboard_filter_issues" doc)) in
          for_each (dashboard_item (context_of doc)) items issues
     else Ok issues) =
    Ok (issues ++ match dict_lookup "dashboard_filter_issues" doc with
                  | Some (VList items) => map (dashboard_record (context_of doc)) items
                  | _ => []
                  end)).
  { destruct (dict_lookup "dashboard_filter_issues" doc) as [[| | | | | items | |] |];
      try (cbn; by rewrite app_nil_r).
    cbn.
    rewrite (for_each_append _ (fun item => [dashboard_record (context_of doc) item])).
    - by rewrite flat_map_singleton.
    - intros. apply dashboard_item_eq. }
  rewrite Hdash. cbn [bind]. clear Hdash.
  destruct (dict_lookup "queries_and_issues" doc) as [[| | | | | queries | |] |];
    try (cbn; by rewrite app_nil_r).
  cbn.
  rewrite (for_each_append _ (query_issues (context_of doc))).
  - by rewrite app_assoc.
  - intros. apply query_step_eq.
Qed.

(** Document-tree extraction never raises on an object payload, and
    collects what the specification describes. *)
Lemma _collect_content_issues_eq (d : dict) :
  _collect_content_issues (VDict d) = Ok (document_tree d).
Proof.
  unfold _collect_content_issues, document_tree.
  rewrite py_get_dict. unfold get.
  destruct (dict_lookup "content" d) as [[| | | | | documents | |] |];
    try done.
  cbn.
  rewrite (for_each_append _ document_issues); [done |].
  intros. apply document_step_eq.
Qed.

(** ** Locator: the key rules *)

Lemma first_list_key_dict (d : dict) (ks : list string) :
  first_list_key (VDict d) ks = Ok (VList <$> first_sequence d ks).
Proof.
  induction ks as [| k ks IH]; [done |].
  cbn [first_list_key first_sequence]. rewrite py_get_dict. unfold get.
  by destruct (dict_lookup k d) as [[| | | | | l | |] |].
Qed.

Lemma first_sequence_content_tree (d : dict) :
  dict_lookup "content" d = None -> document_tree d = [].
Proof. unfold document_tree. by intros ->. Qed.

(** Without an explicit path, an object payload goes through rules 4 to 7. *)
Lemma _extract_issues_dict (d : dict) :
  _extract_issues (VDict d) None = Ok (VList (locate_object d)).
Proof.
  unfold _extract_issues, locate_object.
  cbn [_extract_by_path bind is_None negb isinstance_list isinstance_dict].
  rewrite first_list_key_dict.
  destruct (first_sequence d ["issues"; "validation_issues"; "errors"]) as [l |];
    [done |].
  cbn [fmap option_fmap option_map bind]. rewrite py_in_dict. cbn [bind].
  destruct (dict_lookup "content" d) as [c |] eqn:Hc.
  - rewrite bool_decide_eq_true_2 by eauto.
    rewrite _collect_content_issues_eq. cbn [bind].
    destruct (document_tree d) as [| x tree]; cbn [truthy_list bind].
    + rewrite first_list_key_dict. by destruct (first_sequence d _).
    + done.
  - rewrite bool_decide_eq_false_2 by (intros [v Hv]; discriminate).
    rewrite first_sequence_content_tree by done. cbn [bind].
    rewrite first_list_key_dict. by destruct (first_sequence d _).
Qed.

(** The locator never raises and always returns a list. *)
Lemma _extract_issues_total (payload : value) (path : option string) :
  exists l, _extract_issues payload path = Ok (VList l).
Proof.
  destruct (_extract_by_path_cases payload path) as [Hnone | [l Hl]].
  - rewrite (_extract_issues_no_path _ _ Hnone).
    destruct payload as [| | | | | l | d |];
      try (by exists []); [by exists l |].
    rewrite _extract_issues_dict. eauto.
  - exists l. by apply _extract_issues_by_path.
Qed.

(** ** Locator: the claims *)

(** C4: when an explicit path is given and its traversal through nested
    objects completes at a sequence, the locator returns exactly that
    sequence, empty or not, whatever else the payload holds. *)
Theorem explicit_path_wins (payload : value) (path : string) (l : list value) :
  path <> EmptyString ->
  resolves payload (split "." path) (VList l) ->
  _extract_issues payload (Some path) = Ok (VList l).
Proof.
  intros Hne Hres. apply _extract_issues_by_path.
  by apply _extract_by_path_resolves.
Qed.

(** Scenario D: [data.problems] against [{"data": {"problems": []}}]. *)
Lemma scenario_D :
  "data.problems" <> EmptyString /\
  resolves (VDict [("data", VDict [("problems", VList [])])])
           (split "." "data.problems") (VList []) /\
  _extract_issues (VDict [("data", VDict [("problems", VList [])])])
                  (Some "data.problems") = Ok (VList []).
Proof.
  assert (Hres : resolves (VDict [("data", VDict [("problems", VList [])])])
                          (split "." "data.problems") (VList [])).
  { apply (resolves_step _ "data" ["problems"] (VDict [("problems", VList [])]));
      [reflexivity |].
    apply (resolves_step _ "problems" [] (VList [])); [reflexivity |].
    apply resolves_done. }
  split; [discriminate |]. split; [exact Hres |].
  apply explicit_path_wins; [discriminate | exact Hres].
Defined.

(** The empty match wins over a non-empty [issues] list. *)
Example explicit_path_beats_issues :
  _extract_issues
    (VDict [("issues", VList [VStr "e"]);
            ("data", VDict [("problems", VList [])])])
    (Some "data.problems") = Ok (VList []).
Proof. reflexivity. Qed.

(** C5: on an object payload where no explicit path matched, the locator
    returns the first sequence among [issues], [validation_issues],
    [errors]; failing that the document-tree extraction of [content] when
    it yields an issue; failing that the first sequence among [content],
    [documents], [items], [results]. *)
Theorem object_payload_rules (d : dict) (path : option string) :
  _extract_by_path (VDict d) path = Ok VNone ->
  _extract_issues (VDict d) path = Ok (VList (locate_object d)).
Proof.
  intros H. rewrite (_extract_issues_no_path _ _ H). apply _extract_issues_dict.
Qed.

Lemma object_payload_rules_witness :
  _extract_by_path
    (VDict [("items", VList [VStr "i"]);
            ("content", VList [VInt 1]);
            ("errors", VStr "none")])
    (Some "data.problems") = Ok VNone /\
  _extract_issues
    (VDict [("items", VList [VStr "i"]);
            ("content", VList [VInt 1]);
            ("errors", VStr "none")])
    (Some "data.problems") = Ok (VList [VInt 1]).
Proof.
  split; [reflexivity |].
  exact (object_payload_rules
           [("items", VList [VStr "i"]);
            ("content", VList [VInt 1]);
            ("errors", VStr "none")]
           (Some "data.problems") eq_refl).
Defined.

(** The three tiers of rules 4 to 6, one payload each. *)
Example rule_4_priority :
  _extract_issues
    (VDict [("errors", VList [VStr "e"]);
            ("validation_issues", VList [VStr "v"]);
            ("content", VList [])])
    None = Ok (VList [VStr "v"]).
Proof. reflexivity. Qed.

Example rule_5_needs_an_issue :
  _extract_issues
    (VDict [("results", VList [VStr "r"]);
            ("content", VList [VDict [("name", VStr "Doc1")]])])
    None = Ok (VList [VDict [("name", VStr "Doc1")]]).
Proof. reflexivity. Qed.

(** C7: for every payload and every path the locator returns a list; the
    explicit path never raises, and when it does not resolve the remaining
    rules decide as if no path had been given; when no rule matches the
    result is the empty list. *)
Theorem locate_total (payload : value) (path : option string) :
  (exists l, _extract_issues payload path = Ok (VList l)) /\
  (_extract_by_path payload path = Ok VNone \/
   exists l, _extract_by_path payload path = Ok (VList l)) /\
  (_extract_by_path payload path = Ok VNone ->
   _extract_issues payload path = _extract_issues payload None) /\
  (no_rule_matches payload path ->
   _extract_issues payload path = Ok (VList [])).
Proof.
  split; [apply _extract_issues_total |].
  split; [apply _extract_by_path_cases |].
  split; [apply _extract_issues_no_path |].
  intros (Hpath & Hlist & Hdict).
  assert (Hnone : _extract_by_path payload path = Ok VNone).
  { destruct (_extract_by_path_cases payload path) as [H | [l Hl]]; [done |].
    exfalso. destruct path as [p |]; [| discriminate].
    unfold _extract_by_path in Hl.
    destruct (nonempty p) eqn:Hp; [| discriminate]. cbn [negb] in Hl.
    destruct (walk_path_ok (split "." p) payload) as [[current |] Hw];
      rewrite Hw in Hl; cbn [bind] in Hl; [| discriminate].
    destruct current; try discriminate. injection Hl as ->.
    apply (Hpath p l); [done | by destruct p | by apply walk_path_Some]. }
  rewrite (_extract_issues_no_path _ _ Hnone).
  destruct payload as [| | | | | l | d |]; try done.
  rewrite _extract_issues_dict. unfold locate_object.
  destruct (Hdict d eq_refl) as (-> & -> & ->). done.
Qed.

Lemma locate_total_witness :
  no_rule_matches (VInt 5) (Some "a.b") /\
  _extract_issues (VInt 5) (Some "a.b") = Ok (VList []).
Proof.
  assert (H : no_rule_matches (VInt 5) (Some "a.b")).
  { split; [| split; [reflexivity | discriminate]].
    intros p l _ _ Hres.
    destruct (split "." p); inversion Hres. }
  split; [exact H |].
  exact (proj2 (proj2 (proj2 (locate_total (VInt 5) (Some "a.b")))) H).
Defined.

(** C10: an empty path, like no path, resolves nothing, so the locator
    decides by the later rules exactly as without a path. *)
Theorem empty_path_is_absent (payload : value) :
  _extract_by_path payload (Some EmptyString) = Ok VNone /\
  _extract_by_path payload None = Ok VNone /\
  _extract_issues payload (Some EmptyString) = _extract_issues payload None.
Proof. repeat split; reflexivity. Qed.

(** No lookup of the empty field name under the empty path; the path [.]
    is what names it. *)
Example empty_path_no_empty_field :
  _extract_issues (VDict [("", VDict [("", VList [VInt 1])])]) (Some "")
    = Ok (VList []) /\
  _extract_issues (VDict [("", VDict [("", VList [VInt 1])])]) (Some ".")
    = Ok (VList [VInt 1]).
Proof. split; reflexivity. Qed.

(** ** Document-tree extraction is lenient *)

Lemma get_set_ne (doc : dict) (k k' : string) (v : value) :
  k <> k' -> get (dict_set k v doc) k' = get doc k'.
Proof. intros H. unfold get. by rewrite dict_lookup_set_ne. Qed.

(** The context record reads none of the two issue fields. *)
Lemma context_of_set (doc : dict) (k : string) (v : value) :
  k = "dashboard_filter_issues" \/ k = "queries_and_issues" ->
  context_of (dict_set k v doc) = context_of doc.
Proof.
  intros Hk. unfold context_of.
  rewrite !get_set_ne by (destruct Hk as [-> | ->]; discriminate).
  by rewrite (dict_lookup_set_ne doc k "folder")
    by (destruct Hk as [-> | ->]; discriminate).
Qed.

Lemma document_issues_not_dict (x : value) :
  isinstance_dict x = false -> document_issues x = [].
Proof. by destruct x. Qed.

Lemma query_issues_not_dict (ctx : dict) (x : value) :
  isinstance_dict x = false -> query_issues ctx x = [].
Proof. by destruct x. Qed.

Lemma flat_map_skip {A B} (f : A -> list B) (l1 l2 : list A) (x : A) :
  f x = [] -> flat_map f (l1 ++ x :: l2) = flat_map f (l1 ++ l2).
Proof.
  intros Hx. rewrite !flat_map_app. simpl. by rewrite Hx.
Qed.

(** C9: document-tree extraction never raises on an object payload and
    yields the issues of its documents in order; an element of [content]
    or of [queries_and_issues] that is not an object is skipped, and a
    [dashboard_filter_issues] or [issues] field that is not a sequence
    counts as an empty one; the loop goes on with the remaining elements. *)
Theorem collect_lenient (d : dict) :
  _collect_content_issues (VDict d) = Ok (document_tree d) /\
  (forall docs1 x docs2,
     dict_lookup "content" d = Some (VList (docs1 ++ x :: docs2)) ->
     isinstance_dict x = false ->
     _collect_content_issues (VDict d) =
     _collect_content_issues (VDict (dict_set "content" (VList (docs1 ++ docs2)) d))) /\
  (forall issues qs1 x qs2,
     dict_lookup "queries_and_issues" d = Some (VList (qs1 ++ x :: qs2)) ->
     isinstance_dict x = false ->
     document_step issues (VDict d) =
     document_step issues
       (VDict (dict_set "queries_and_issues" (VList (qs1 ++ qs2)) d))) /\
  (forall issues v,
     dict_lookup "dashboard_filter_issues" d = Some v ->
     isinstance_list v = false ->
     document_step issues (VDict d) =
     document_step issues (VDict (dict_set "dashboard_filter_issues" (VList []) d))) /\
  (forall ctx issues v,
     dict_lookup "issues" d = Some v ->
     isinstance_list v = false ->
     query_step ctx issues (VDict d) = Ok issues).
Proof.
  split; [apply _collect_content_issues_eq |].
  split; [| split; [| split]].
  - intros docs1 x docs2 Hc Hx. rewrite !_collect_content_issues_eq.
    unfold document_tree. rewrite Hc, dict_lookup_set_eq.
    by rewrite flat_map_skip by by apply document_issues_not_dict.
  - intros issues qs1 x qs2 Hq Hx. rewrite !document_step_eq.
    unfold document_issues.
    rewrite context_of_set by by right.
    rewrite dict_lookup_set_eq, Hq.
    rewrite dict_lookup_set_ne by discriminate.
    by rewrite flat_map_skip by by apply query_issues_not_dict.
  - intros issues v Hv Hl. rewrite !document_step_eq.
    unfold document_issues.
    rewrite context_of_set by by left.
    rewrite dict_lookup_set_eq, Hv.
    rewrite dict_lookup_set_ne by discriminate.
    by destruct v.
  - intros ctx issues v Hv Hl. unfold query_step.
    cbn [isinstance_dict negb]. rewrite py_get_dict. unfold get. rewrite Hv.
    cbn [default from_option id bind]. by rewrite Hl.
Qed.

Lemma collect_lenient_witness :
  let d := [("content",
             VList [VStr "stray";
                    VDict [("name", VStr "Doc1");
                           ("dashboard_filter_issues", VInt 7);
                           ("queries_and_issues",
                            VList [VNone;
                                   VDict [("query_name", VStr "q");
                                          ("issues", VList [VStr "slow"])]])]])] in
  dict_lookup "content" d =
    Some (VList ([] ++ VStr "stray" ::
                 [VDict [("name", VStr "Doc1");
                         ("dashboard_filter_issues", VInt 7);
                         ("queries_and_issues",
                          VList [VNone;
                                 VDict [("query_name", VStr "q");
                                        ("issues", VList [VStr "slow"])]])]])) /\
  isinstance_dict (VStr "stray") = false /\
  _collect_content_issues (VDict d) =
  _collect_content_issues
    (VDict (dict_set "content"
              (VList ([] ++
                 [VDict [("name", VStr "Doc1");
                         ("dashboard_filter_issues", VInt 7);
                         ("queries_and_issues",
                          VList [VNone;
                                 VDict [("query_name", VStr "q");
                                        ("issues", VList [VStr "slow"])]])]])) d)).
Proof.
  intros d. split; [reflexivity |]. split; [reflexivity |].
  exact (proj1 (proj2 (collect_lenient d)) [] (VStr "stray") _ eq_refl eq_refl).
Defined.

(** One payload with every malformed shape at once. *)
Example collect_skips_malformed :
  _collect_content_issues
    (VDict [("content",
             VList [VStr "stray";
                    VDict [("name", VStr "Doc1");
                           ("dashboard_filter_issues", VInt 7);
                           ("queries_and_issues",
                            VList [VNone;
                                   VDict [("issues", VStr "none")];
                                   VDict [("query_name", VStr "q");
                                          ("issues", VList [VStr "slow"])]])];
                    VInt 3])])
  = Ok [VDict [("message", VStr "slow"); ("raw_issue", VStr "slow");
               ("issue_type", VStr "query"); ("query_name", VStr "q");
               ("query_presentation_id", VNone); ("document_id", VNone);
               ("document_name", VStr "Doc1"); ("document_type", VNone);
               ("folder_name", VNone); ("folder_path", VNone)]].
Proof. reflexivity. Qed.

(** ** History differ *)

Lemma _partition_issues_eq (current previous : list NormalizedIssue) :
  _partition_issues current previous =
  (filter (fun item => Issue.id item ∉ Issue.id <$> previous) current,
   filter (fun item => Issue.id item ∈ Issue.id <$> previous) current,
   filter (fun item => Issue.id item ∉ Issue.id <$> current) previous).
Proof.
  unfold _partition_issues. repeat f_equal; apply list_filter_iff; intros x.
  - apply not_elem_of_list_to_set.
  - apply elem_of_list_to_set.
  - apply not_elem_of_list_to_set.
Qed.

(** With no history every current issue is new, duplicates included. *)
Lemma _partition_issues_no_history (current : list NormalizedIssue) :
  _partition_issues current [] = (current, [], []).
Proof.
  rewrite _partition_issues_eq. cbn [fmap list_fmap].
  assert (Hnew : filter (fun item => Issue.id item ∉ @nil string) current = current).
  { induction current as [| x l IH]; [done |].
    rewrite filter_cons_True by apply not_elem_of_nil. by rewrite IH. }
  assert (Hex : filter (fun item => Issue.id item ∈ @nil string) current = []).
  { clear Hnew. induction current as [| x l IH]; [done |].
    rewrite filter_cons_False; [exact IH |].
    intros H. by apply not_elem_of_nil in H. }
  by rewrite Hnew, Hex.
Qed.

(** C1: [new] is the current items whose id is not a previous id,
    [existing] those whose id is one, [resolved] the previous items whose
    id is not a current id, each in its original order; [new] and
    [existing] share no item and together are [current]; [resolved] shares
    no item with either and is drawn from [previous]. *)
Theorem partition_spec (current previous : list NormalizedIssue) :
  let '(new, existing, resolved) := _partition_issues current previous in
  new = filter (fun item => Issue.id item ∉ Issue.id <$> previous) current /\
  existing = filter (fun item => Issue.id item ∈ Issue.id <$> previous) current /\
  resolved = filter (fun item => Issue.id item ∉ Issue.id <$> current) previous /\
  new `sublist_of` current /\
  existing `sublist_of` current /\
  resolved `sublist_of` previous /\
  (forall x, x ∈ new -> x ∉ existing) /\
  (forall x, x ∈ current <-> x ∈ new \/ x ∈ existing) /\
  (new ++ existing) ≡ₚ current /\
  (forall x, x ∈ resolved -> (x ∉ new) /\ (x ∉ existing)) /\
  (forall x, x ∈ resolved -> x ∈ previous).
Proof.
  rewrite _partition_issues_eq.
  split; [done |]. split; [done |]. split; [done |].
  split; [apply sublist_filter |]. split; [apply sublist_filter |].
  split; [apply sublist_filter |].
  split.
  { intros x Hnew Hex. apply list_elem_of_filter in Hnew, Hex.
    by destruct Hnew, Hex. }
  split.
  { intros x. rewrite !list_elem_of_filter.
    destruct (decide (Issue.id x ∈ Issue.id <$> previous)); tauto. }
  split.
  { rewrite (comm app). apply filter_app_complement. }
  split.
  { intros x Hres. apply list_elem_of_filter in Hres as [Hres _].
    split; intros Hcur; apply list_elem_of_filter in Hcur as [_ Hcur];
      apply Hres; by apply list_elem_of_fmap_2. }
  intros x Hres. by apply list_elem_of_filter in Hres as [_ Hprev].
Qed.

(** Scenario C: X resolved, Y new, nothing existing. *)
Example scenario_C (X Y : NormalizedIssue) :
  Issue.id X <> Issue.id Y ->
  _partition_issues [Y] [X] = ([Y], [], [X]).
Proof.
  intros Hne. rewrite _partition_issues_eq. cbn [fmap list_fmap].
  assert (HY : Issue.id Y ∉ [Issue.id X]).
  { intros H. by apply list_elem_of_singleton in H. }
  assert (HX : Issue.id X ∉ [Issue.id Y]).
  { intros H. by apply list_elem_of_singleton in H. }
  rewrite (filter_cons_True (fun item => Issue.id item ∉ [Issue.id X])) by done.
  rewrite (filter_cons_False (fun item => Issue.id item ∈ [Issue.id X])) by done.
  by rewrite (filter_cons_True (fun item => Issue.id item ∉ [Issue.id Y])) by done.
Qed.

(** ** Normalizer: identity *)

(** [json.dumps] returns text or raises [TypeError], nothing else. *)
Lemma json_dumps_cases (sort_keys : bool) (item_sep key_sep : string) (v : value) :
  serializable v = true /\
    json_dumps sort_keys item_sep key_sep v =
    Ok (json_encode sort_keys item_sep key_sep v) \/
  serializable v = false /\
    json_dumps sort_keys item_sep key_sep v = Raise TypeError.
Proof. unfold json_dumps. destruct (serializable v); auto. Qed.

(** The text that is hashed: the canonical serialization when there is
    one, [str] of the value otherwise. *)
Lemma identity_input_eq (issue : value) :
  identity_input issue =
  Ok (default (py_str issue) (canonical_serialization issue)).
Proof.
  unfold identity_input, canonical_serialization, json_dumps.
  destruct issue; try reflexivity.
  - by destruct (serializable (VList items)).
  - by destruct (serializable (VDict items)).
Qed.

Lemma identity_input_canonical (raw : value) (s : string) :
  canonical_serialization raw = Some s -> identity_input raw = Ok s.
Proof. intros H. by rewrite identity_input_eq, H. Qed.

(** ** Normalizer: summary *)

Lemma first_text_key_ok (d : dict) (ks : list string) :
  exists r, first_text_key (VDict d) ks = Ok r.
Proof.
  induction ks as [| k ks [r IH]]; [by exists None |].
  cbn [first_text_key]. rewrite py_get_dict. cbn [bind].
  destruct (get d k); eauto. destruct (nonempty (strip s)); eauto.
Qed.

Lemma prefix_part_get (d : dict) (k : string) :
  prefix_part (get d k) = stripped_field d k.
Proof.
  unfold prefix_part, stripped_field, get.
  by destruct (dict_lookup k d) as [[] |].
Qed.

Lemma nonempty_app (s1 s2 : string) :
  nonempty s1 = true -> nonempty (s1 +:+ s2) = true.
Proof. by destruct s1. Qed.

Lemma stripped_field_cases (d : dict) (k : string) :
  stripped_field d k = [] \/
  exists s, stripped_field d k = [s] /\ nonempty s = true.
Proof.
  unfold stripped_field.
  destruct (dict_lookup k d) as [[| | | | s | | |] |]; auto.
  destruct (nonempty (strip s)) eqn:E; eauto.
Qed.

(** [f"{prefix}: {message}" if prefix else message] decides by the parts. *)
Lemma prefix_choice (d : dict) (m : string) :
  let prefix :=
    join " / " (stripped_field d "document_name" ++ stripped_field d "query_name") in
  (if nonempty prefix then prefix +:+ ": " +:+ m else m) =
  summary_with_message d m.
Proof.
  unfold summary_with_message, prefixed.
  destruct (stripped_field_cases d "document_name") as [-> | (s1 & -> & H1)];
    destruct (stripped_field_cases d "query_name") as [-> | (s2 & -> & H2)];
    cbn [app join String.concat].
  - reflexivity.
  - by rewrite H2.
  - by rewrite H1.
  - by rewrite nonempty_app.
Qed.

(** The message rule of [_issue_summary]. *)
Lemma _issue_summary_message (d : dict) (m : string) :
  coerced_message d = Some m ->
  nonempty (strip m) = true ->
  _issue_summary (VDict d) = Ok (summary_with_message d m).
Proof.
  intros Hm Hne. unfold _issue_summary. rewrite py_get_dict. cbn [bind].
  assert (Hco :
    (if negb (is_None (get d "message")) && negb (isinstance_str (get d "message"))
     then VStr (py_str (get d "message")) else get d "message") = VStr m).
  { unfold coerced_message in Hm. unfold get.
    destruct (dict_lookup "message" d) as [[] |]; try discriminate;
      injection Hm as <-; reflexivity. }
  rewrite Hco, Hne, !py_get_dict. cbn [bind].
  rewrite !prefix_part_get. by rewrite <- prefix_choice.
Qed.

(** Without a usable message the summary is the first text key, else the
    JSON text of the object. *)
Lemma _issue_summary_no_message (d : dict) :
  (forall m, coerced_message d = Some m -> nonempty (strip m) = false) ->
  _issue_summary (VDict d) =
  let* r := first_text_key (VDict d) ["title"; "name"; "path"; "field"] in
  match r with
  | Some value => Ok value
  | None => json_dumps true ", " ": " (VDict d)
  end.
Proof.
  intros Hm. unfold _issue_summary. rewrite py_get_dict. cbn [bind].
  unfold coerced_message, get in *.
  destruct (dict_lookup "message" d) as [[] |];
    try specialize (Hm _ eq_refl);
    cbn [default from_option id is_None isinstance_str negb andb bind];
    try done; by rewrite Hm.
Qed.

(** A summary is lost only to [json.dumps]. *)
Lemma _issue_summary_cases (issue : value) :
  (exists s, _issue_summary issue = Ok s) \/
  serializable issue = false /\ _issue_summary issue = Raise TypeError.
Proof.
  destruct issue as [| | | | | | d |]; try (left; by eexists).
  destruct (coerced_message d) as [m |] eqn:Hm.
  - destruct (nonempty (strip m)) eqn:Hne.
    { left. eexists. by apply _issue_summary_message. }
    rewrite _issue_summary_no_message by (intros m' Hm'; congruence).
    destruct (first_text_key_ok d ["title"; "name"; "path"; "field"]) as [[s |] ->];
      cbn [bind]; [left; by eexists |].
    destruct (json_dumps_cases true ", " ": " (VDict d)) as [[_ ->] | [? ->]]; eauto.
  - rewrite _issue_summary_no_message by (intros m' Hm'; congruence).
    destruct (first_text_key_ok d ["title"; "name"; "path"; "field"]) as [[s |] ->];
      cbn [bind]; [left; by eexists |].
    destruct (json_dumps_cases true ", " ": " (VDict d)) as [[_ ->] | [? ->]]; eauto.
Qed.

Lemma _issue_summary_total (issue : value) :
  serializable issue = true -> exists s, _issue_summary issue = Ok s.
Proof.
  intros Hs. destruct (_issue_summary_cases issue) as [H | [Hf _]]; [done |].
  congruence.
Qed.

(** ** Sorting the items of a dict by key *)

Lemma string_leb_trans (a b c : string) :
  String.leb a b = true -> String.leb b c = true -> String.leb a c = true.
Proof.
  unfold String.leb.
  destruct (String.compare a b) eqn:Hab; [| | discriminate];
    destruct (String.compare b c) eqn:Hbc; try discriminate; intros _ _.
  - apply String.compare_eq_iff in Hab as ->. by rewrite Hbc.
  - apply String.compare_eq_iff in Hab as ->. by rewrite Hbc.
  - apply String.compare_eq_iff in Hbc as <-. by rewrite Hab.
  - apply String_as_OT.cmp_lt in Hab, Hbc.
    pose proof (String_as_OT.lt_trans _ _ _ Hab Hbc) as Hac.
    apply String_as_OT.cmp_lt in Hac. unfold String_as_OT.cmp in Hac.
    by rewrite Hac.
Qed.

#[local] Instance key_le_trans {A} : Transitive (@key_le A).
Proof. intros x y z. apply string_leb_trans. Qed.

Lemma insert_by_key_perm {A} (x : string * A) (l : list (string * A)) :
  insert_by_key x l ≡ₚ x :: l.
Proof.
  induction l as [| y l IH]; [done |].
  cbn [insert_by_key]. destruct (String.leb (fst x) (fst y)); [done |].
  rewrite IH. apply Permutation_swap.
Qed.

Lemma sort_by_key_perm {A} (l : list (string * A)) : sort_by_key l ≡ₚ l.
Proof.
  induction l as [| x l IH]; [done |].
  cbn [sort_by_key fold_right]. rewrite insert_by_key_perm.
  by apply Permutation_skip.
Qed.

Lemma insert_by_key_hd {A} (x y : string * A) (l : list (string * A)) :
  key_le y x -> HdRel key_le y l -> HdRel key_le y (insert_by_key x l).
Proof.
  intros Hyx Hl. destruct l as [| z l]; cbn [insert_by_key]; [by constructor |].
  destruct (String.leb (fst x) (fst z)); constructor; [done |].
  by apply HdRel_inv in Hl.
Qed.

Lemma insert_by_key_sorted {A} (x : string * A) (l : list (string * A)) :
  Sorted key_le l -> Sorted key_le (insert_by_key x l).
Proof.
  induction 1 as [| y l Hl IH Hhd]; cbn [insert_by_key].
  - by repeat constructor.
  - destruct (String.leb (fst x) (fst y)) eqn:Hxy.
    + constructor; [by constructor | by constructor].
    + constructor; [exact IH |].
      apply insert_by_key_hd; [| done].
      destruct (String.leb_total (fst x) (fst y)) as [H | H]; [congruence | done].
Qed.

Lemma sort_by_key_sorted {A} (l : list (string * A)) :
  Sorted key_le (sort_by_key l).
Proof.
  induction l as [| x l IH]; [constructor |].
  by apply insert_by_key_sorted.
Qed.

Lemma NoDup_keys_inj {A} (l : list (string * A)) (x y : string * A) :
  NoDup (map fst l) -> x ∈ l -> y ∈ l -> fst x = fst y -> x = y.
Proof.
  induction l as [| z l IH]; intros Hnd Hx Hy Hxy.
  - by apply elem_of_nil in Hx.
  - apply NoDup_cons in Hnd as [Hz Hnd].
    apply elem_of_cons in Hx as [-> | Hx]; apply elem_of_cons in Hy as [-> | Hy].
    + done.
    + exfalso. apply Hz. rewrite Hxy. by apply (list_elem_of_fmap_2 fst).
    + exfalso. apply Hz. rewrite <- Hxy. by apply (list_elem_of_fmap_2 fst).
    + by apply IH.
Qed.

(** With distinct keys the sorted items do not depend on the order the
    items came in. *)
Lemma sort_by_key_unique {A} (l1 l2 : list (string * A)) :
  NoDup (map fst l1) -> l1 ≡ₚ l2 -> sort_by_key l1 = sort_by_key l2.
Proof.
  intros Hnd Hperm.
  apply (Sorted_unique_strong key_le);
    [| apply sort_by_key_sorted | apply sort_by_key_sorted
     | by rewrite !sort_by_key_perm].
  intros x y Hx Hy Hxy Hyx.
  rewrite sort_by_key_perm in Hx. rewrite sort_by_key_perm, <- Hperm in Hy.
  apply (NoDup_keys_inj l1); try done.
  by apply String.leb_antisym.
Qed.

(** ** Canonical serialization and key order *)

Lemma keys_encoded (f : value -> string) (d : dict) :
  map fst (map (fun kv => let '(k, x) := kv in (k, f x)) d) = keys d.
Proof.
  unfold keys. rewrite map_map. apply map_ext. by intros [k x].
Qed.

Lemma serializable_List (l : list value) :
  serializable (VList l) = true <-> Forall (fun x => serializable x = true) l.
Proof.
  cbn [serializable]. rewrite forallb_forall, Forall_forall.
  split; intros H x Hx; apply H; by apply list_elem_of_In.
Qed.

Lemma serializable_Dict (d : dict) :
  serializable (VDict d) = true <->
  Forall (fun kv => serializable (snd kv) = true) d.
Proof.
  cbn [serializable]. rewrite forallb_forall, Forall_forall.
  split; intros H [k x] Hx; apply (H (k, x)); by apply list_elem_of_In.
Qed.

Lemma same_content_serializable (v1 : value) :
  forall v2, same_content v1 v2 ->
             serializable v1 = true -> serializable v2 = true.
Proof.
  induction v1 as [| | | | | l IH | d IH |] using value_ind';
    intros v2 Hsame; inversion Hsame as [| l1 l2 Hl | d1 d' d2 Hperm Hd];
    subst; try done.
  - rewrite !serializable_List. intros Hs. clear Hsame.
    induction Hl as [| x y l l2 Hxy _ IHl]; [done |].
    apply Forall_cons in IH as [IHx IH]. apply Forall_cons in Hs as [Hx Hs].
    constructor; [by apply IHx | by apply IHl].
  - rewrite !serializable_Dict. intros Hs.
    rewrite Hperm in IH, Hs. clear Hperm Hsame.
    induction Hd as [| x y l l2 [_ Hxy] _ IHl]; [done |].
    apply Forall_cons in IH as [IHx IH]. apply Forall_cons in Hs as [Hx Hs].
    constructor; [by apply IHx | by apply IHl].
Qed.

(** Values equal up to key order have the same sorted-key JSON text. *)
Lemma same_content_json_encode (item_sep key_sep : string) (v1 : value) :
  well_formed v1 ->
  forall v2, same_content v1 v2 ->
             json_encode true item_sep key_sep v1 =
             json_encode true item_sep key_sep v2.
Proof.
  induction v1 as [| | | | | l IH | d IH |] using value_ind';
    intros Hwf v2 Hsame; inversion Hsame as [| l1 l2 Hl | d1 d' d2 Hperm Hd];
    subst; try done.
  - inversion Hwf as [| | | | | l' Hwfl | |]; subst.
    cbn [json_encode]. do 3 f_equal. clear Hsame Hwf.
    induction Hl as [| x y l l2 Hxy _ IHl]; [done |].
    apply Forall_cons in IH as [IHx IH]. apply Forall_cons in Hwfl as [Hx Hwfl].
    cbn [map]. f_equal; [by apply IHx | by apply IHl].
  - inversion Hwf as [| | | | | | d0 Hnd Hwfd |]; subst.
    cbn [json_encode]. do 4 f_equal.
    set (enc := fun kv : string * value =>
                  let '(k, x) := kv in (k, json_encode true item_sep key_sep x)).
    transitivity (sort_by_key (map enc d')).
    + apply sort_by_key_unique.
      * unfold enc. by rewrite keys_encoded.
      * by apply Permutation_map.
    + f_equal. rewrite Hperm in IH, Hwfd. clear Hperm Hsame Hnd Hwf.
      induction Hd as [| [k1 x1] [k2 x2] l l2 [Hk Hxy] _ IHl]; [done |].
      apply Forall_cons in IH as [IHx IH]. apply Forall_cons in Hwfd as [Hx Hwfd].
      cbn [map enc]. cbn [fst snd] in *. subst k2.
      f_equal; [f_equal; by apply IHx | by apply IHl].
Qed.

Lemma same_content_canonical (v1 v2 : value) :
  well_formed v1 -> serializable v1 = true -> same_content v1 v2 ->
  canonical_serialization v1 = canonical_serialization v2 /\
  canonical_serialization v1 <> None.
Proof.
  intros Hwf Hs Hsame.
  pose proof (same_content_serializable _ _ Hsame Hs) as Hs2.
  pose proof (same_content_json_encode "," ":" _ Hwf _ Hsame) as Henc.
  unfold canonical_serialization. rewrite Hs, Hs2.
  inversion Hsame; subst; [| by rewrite Henc | by rewrite Henc].
  by destruct v2.
Qed.

(** ** Normalizer: the loop *)

Section NormalizerProperties.

Variable sha256_hexdigest : string -> string.

Abbreviation _issue_identity' := (_issue_identity sha256_hexdigest).
Abbreviation normalize' := (normalize sha256_hexdigest).
Abbreviation _normalize_issues' := (_normalize_issues sha256_hexdigest).

(** The identity never raises: it is the hash of the canonical
    serialization, or of [str] of the value when there is none. *)
Lemma _issue_identity_eq (issue : value) :
  _issue_identity' issue =
  Ok (sha256_hexdigest
        (default (py_str issue) (canonical_serialization issue))).
Proof. unfold _issue_identity. by rewrite identity_input_eq. Qed.

Lemma normalize_inv (issue : value) (n : NormalizedIssue) :
  normalize' issue = Ok n ->
  _issue_identity' issue = Ok (Issue.id n) /\
  _issue_summary issue = Ok (Issue.summary n) /\
  Issue.raw n = issue.
Proof.
  unfold normalize. rewrite _issue_identity_eq. cbn [bind].
  destruct (_issue_summary issue) as [s | e]; cbn [bind]; [| discriminate].
  by intros [= <-].
Qed.

Lemma normalize_cases (issue : value) :
  (exists n, normalize' issue = Ok n) \/
  serializable issue = false /\ normalize' issue = Raise TypeError.
Proof.
  unfold normalize. rewrite _issue_identity_eq. cbn [bind].
  destruct (_issue_summary_cases issue) as [[s ->] | [Hs ->]]; cbn [bind]; eauto.
Qed.

Lemma for_each_normalize (l : list value) :
  forall acc ns,
    for_each (normalize_step sha256_hexdigest) l acc = Ok ns <->
    exists ns', ns = acc ++ ns' /\
                Forall2 (fun issue n => normalize' issue = Ok n) l ns'.
Proof.
  induction l as [| issue l IH]; intros acc ns; cbn [for_each].
  - split.
    + intros [= <-]. exists []. by rewrite app_nil_r.
    + intros (ns' & -> & Hall). inversion Hall. by rewrite app_nil_r.
  - unfold normalize_step at 1.
    destruct (normalize' issue) as [n | e] eqn:Hn; cbn [bind].
    + rewrite IH. split.
      * intros (ns' & -> & Hall). exists (n :: ns').
        rewrite <- app_assoc. split; [done |]. by constructor.
      * intros (ns' & -> & Hall).
        inversion Hall as [| ? n' ? ns'' Hn' Hall']; subst.
        rewrite Hn in Hn'. injection Hn' as <-.
        exists ns''. by rewrite <- app_assoc.
    + split; [discriminate |].
      intros (ns' & _ & Hall). inversion Hall; congruence.
Qed.

(** Normalizing a list normalizes each item on its own, in order. *)
Lemma _normalize_issues_list (l : list value) (ns : list NormalizedIssue) :
  _normalize_issues' (VList l) = Ok ns <->
  Forall2 (fun issue n => normalize' issue = Ok n) l ns.
Proof.
  unfold _normalize_issues. cbn [py_iter bind]. rewrite for_each_normalize.
  split; [by intros (ns' & -> & H) | intros H; by exists ns].
Qed.

(** On JSON values the normalizer never raises. *)
Lemma _normalize_issues_total (l : list value) :
  Forall (fun issue => serializable issue = true) l ->
  exists ns, _normalize_issues' (VList l) = Ok ns.
Proof.
  intros Hl.
  assert (H : exists ns, Forall2 (fun issue n => normalize' issue = Ok n) l ns).
  { induction Hl as [| issue l Hs _ [ns IH]]; [by exists [] |].
    destruct (normalize_cases issue) as [[n Hn] | [Hf _]]; [| congruence].
    exists (n :: ns). by constructor. }
  destruct H as [ns H]. exists ns. by apply _normalize_issues_list.
Qed.

(** ** Normalizer: the claims *)

(** C2, at a failing input: an object holding a value [json.dumps] cannot
    serialize, and no message or text key.  [_issue_identity] falls back
    to [str]; [_issue_summary] does not, so normalization raises. *)
Theorem normalize_raises_on_unserializable :
  let issue := VDict [("detail", VObject "{1, 2}" "{1, 2}")] in
  serializable issue = false /\
  _issue_identity' issue = Ok (sha256_hexdigest "{'detail': {1, 2}}") /\
  _issue_summary issue = Raise TypeError /\
  _normalize_issues' (VList [issue]) = Raise TypeError.
Proof. repeat split. Qed.

(** C3: raw issues with the same canonical serialization get the same id;
    so do values equal up to the order of their keys; normalizing the raw
    value an entry retains gives the entry back; and the entry of an item
    of a list is the normalized form of that item alone. *)
Theorem identity_is_canonical :
  (forall r1 r2 s,
     canonical_serialization r1 = Some s ->
     canonical_serialization r2 = Some s ->
     _issue_identity' r1 = Ok (sha256_hexdigest s) /\
     _issue_identity' r2 = Ok (sha256_hexdigest s)) /\
  (forall r1 r2,
     well_formed r1 -> serializable r1 = true -> same_content r1 r2 ->
     _issue_identity' r1 = _issue_identity' r2) /\
  (forall r n, normalize' r = Ok n -> normalize' (Issue.raw n) = Ok n) /\
  (forall l ns,
     _normalize_issues' (VList l) = Ok ns ->
     Forall2 (fun r n => _issue_identity' r = Ok (Issue.id n) /\
                         _issue_summary r = Ok (Issue.summary n) /\
                         Issue.raw n = r) l ns).
Proof.
  split; [| split; [| split]].
  - intros r1 r2 s H1 H2. by rewrite !_issue_identity_eq, H1, H2.
  - intros r1 r2 Hwf Hs Hsame. rewrite !_issue_identity_eq.
    destruct (same_content_canonical r1 r2 Hwf Hs Hsame) as [<- Hsome].
    by destruct (canonical_serialization r1).
  - intros r n Hn. by destruct (normalize_inv r n Hn) as (_ & _ & ->).
  - intros l ns Hns. apply _normalize_issues_list in Hns.
    eapply Forall2_impl; [exact Hns |]. intros r n. apply normalize_inv.
Qed.

(** C6, as amended: when the message of an object issue, coerced to a
    string, has a character that is not white space, the summary is the
    message, preceded by the stripped [document_name] and [query_name]
    that are strings with such a character, joined by [" / "] and followed
    by [": "], and by nothing when there is no such part.  Scenario B
    yields one normalized issue, with summary [Doc1: bad filter]. *)
Theorem summary_of_message :
  (forall d m,
     coerced_message d = Some m ->
     nonempty (strip m) = true ->
     _issue_summary (VDict d) = Ok (summary_with_message d m)) /\
  (exists n,
     (let* issues :=
        _extract_issues
          (VDict [("content",
                   VList [VDict [("name", VStr "Doc1");
                                 ("dashboard_filter_issues",
                                  VList [VDict [("message", VStr "bad filter")]])]])])
          None in
      _normalize_issues' issues) = Ok [n] /\
     Issue.summary n = "Doc1: bad filter").
Proof.
  split; [apply _issue_summary_message |].
  eexists. split; reflexivity.
Qed.

(** C8: the two equal issues of Scenario A both stay: two entries with
    one id, a total of 2, and both new against an empty history.  In
    general the normalizer keeps one entry per item, and with no history
    every entry is new. *)
Theorem duplicates_retained :
  let payload :=
    VDict [("issues", VList [VStr "missing filter"; VStr "missing filter"])] in
  let n := Issue.Build (sha256_hexdigest "missing filter") "missing filter"
                       (VStr "missing filter") in
  (let* issues := _extract_issues payload None in _normalize_issues' issues)
    = Ok [n; n] /\
  _partition_issues [n; n] [] = ([n; n], [], []) /\
  (exists report,
     main sha256_hexdigest payload None [] false = Ok (report, 1%Z) /\
     total_issues report = 2 /\
     new_issues report = 2 /\
     existing_issues report = 0 /\
     resolved_issues report = 0 /\
     issues report = [n; n] /\
     new_issue_samples report = [n; n]) /\
  (forall l ns, _normalize_issues' (VList l) = Ok ns -> length ns = length l) /\
  (forall current, _partition_issues current [] = (current, [], [])).
Proof.
  intros payload n.
  assert (Hrun :
    (let* issues := _extract_issues payload None in _normalize_issues' issues)
    = Ok [n; n]) by reflexivity.
  split; [exact Hrun |].
  split; [apply _partition_issues_no_history |].
  split.
  - unfold main. change (_extract_issues payload None) with
      (Ok (A := value) (VList [VStr "missing filter"; VStr "missing filter"])).
    cbn [bind].
    change (_normalize_issues sha256_hexdigest
              (VList [VStr "missing filter"; VStr "missing filter"]))
      with (Ok [n; n]).
    cbn [bind]. rewrite _partition_issues_no_history.
    eexists. split; [reflexivity |]. by repeat split.
  - split; [| apply _partition_issues_no_history].
    intros l ns Hns. apply _normalize_issues_list in Hns.
    symmetry. by eapply Forall2_length.
Qed.

End NormalizerProperties.

(** ** Concrete instances *)

(** Key order at two depths, with the identity function as the digest, so
    that equal ids are equal canonical serializations. *)
Lemma identity_is_canonical_witness :
  let r1 :=
    VDict [("b", VInt 1);
           ("a", VList [VDict [("y", VNone); ("x", VStr "t")]])] in
  let r2 :=
    VDict [("a", VList [VDict [("x", VStr "t"); ("y", VNone)]]);
           ("b", VInt 1)] in
  well_formed r1 /\
  serializable r1 = true /\
  same_content r1 r2 /\
  _issue_identity (fun s => s) r1 = _issue_identity (fun s => s) r2.
Proof.
  intros r1 r2.
  assert (Hnd : forall a b : string, a <> b -> NoDup [a; b]).
  { intros a b Hab. apply NoDup_cons. split; [| apply NoDup_singleton].
    intros Hin. by apply list_elem_of_singleton in Hin. }
  assert (Hwf : well_formed r1).
  { apply wf_Dict; [by apply Hnd |].
    apply Forall_cons. split; [apply wf_Int |].
    apply Forall_cons. split; [| apply Forall_nil_2].
    apply wf_List. apply Forall_cons. split; [| apply Forall_nil_2].
    apply wf_Dict; [by apply Hnd |].
    apply Forall_cons. split; [apply wf_None |].
    apply Forall_cons. split; [apply wf_Str | apply Forall_nil_2]. }
  assert (Hsame : same_content r1 r2).
  { apply (same_Dict _ [("a", VList [VDict [("y", VNone); ("x", VStr "t")]]);
                        ("b", VInt 1)]); [apply Permutation_swap |].
    apply Forall2_cons. split.
    - split; [reflexivity |]. apply same_List.
      apply Forall2_cons. split; [| apply Forall2_nil_2].
      apply (same_Dict _ [("x", VStr "t"); ("y", VNone)]);
        [apply Permutation_swap |].
      apply Forall2_cons. split; [split; [reflexivity | apply same_refl] |].
      apply Forall2_cons. split; [split; [reflexivity | apply same_refl] |].
      apply Forall2_nil_2.
    - apply Forall2_cons. split; [split; [reflexivity | apply same_refl] |].
      apply Forall2_nil_2. }
  split; [exact Hwf |]. split; [reflexivity |]. split; [exact Hsame |].
  exact (proj1 (proj2 (identity_is_canonical (fun s => s))) r1 r2 Hwf eq_refl Hsame).
Defined.

(** The issue that document-tree extraction builds in Scenario B. *)
Lemma summary_of_message_witness :
  let d :=
    [("message", VStr "bad filter");
     ("raw_issue", VDict [("message", VStr "bad filter")]);
     ("issue_type", VStr "dashboard_filter");
     ("document_id", VNone); ("document_name", VStr "Doc1");
     ("document_type", VNone); ("folder_name", VNone);
     ("folder_path", VNone)] in
  coerced_message d = Some "bad filter" /\
  nonempty (strip "bad filter") = true /\
  _issue_summary (VDict d) = Ok "Doc1: bad filter".
Proof.
  intros d. split; [reflexivity |]. split; [reflexivity |].
  exact (proj1 (summary_of_message (fun s => s)) d "bad filter" eq_refl eq_refl).
Defined.

(** C6 as stated fails: a message of one space is not empty, yet the
    summary is the JSON text of the object and not the message; and a
    [document_name] with spaces around it enters the prefix stripped. *)
Lemma summary_as_claimed_fails :
  (summary_as_claimed [("message", VStr " ")] = Some " " /\
   _issue_summary (VDict [("message", VStr " ")]) =
     json_dumps true ", " ": " (VDict [("message", VStr " ")]) /\
   _issue_summary (VDict [("message", VStr " ")]) <> Ok " ") /\
  (summary_as_claimed [("message", VStr "m"); ("document_name", VStr " D ")]
     = Some " D : m" /\
   _issue_summary (VDict [("message", VStr "m"); ("document_name", VStr " D ")])
     = Ok "D: m").
Proof.
  split; [| split; reflexivity].
  split; [reflexivity |]. split; [reflexivity |].
  intros H. vm_compute in H. discriminate H.
Qed.

(** Coercion of a message that is not a string, and the fall-through when
    the message is [None]. *)
Example summary_coerces_message :
  _issue_summary (VDict [("message", VInt 404); ("query_name", VStr "q1")])
    = Ok "q1: 404" /\
  _issue_summary (VDict [("message", VNone); ("name", VStr "n")]) = Ok "n".
Proof. split; reflexivity. Qed.

(** ** The run on JSON payloads *)

Lemma serializable_lookup (d : dict) (k : string) (v : value) :
  serializable (VDict d) = true -> dict_lookup k d = Some v ->
  serializable v = true.
Proof.
  rewrite serializable_Dict. intros Hd.
  induction Hd as [| [k' v'] d Hv _ IH]; [done |].
  cbn [dict_lookup]. destruct (String.eqb k k'); [| exact IH].
  by intros [= <-].
Qed.

Lemma serializable_get (d : dict) (k : string) :
  serializable (VDict d) = true -> serializable (get d k) = true.
Proof.
  intros Hd. unfold get.
  destruct (dict_lookup k d) as [v |] eqn:E; [| done].
  by apply (serializable_lookup d k).
Qed.

Lemma resolves_serializable (payload : value) (parts : list string) (v : value) :
  resolves payload parts v -> serializable payload = true ->
  serializable v = true.
Proof.
  induction 1 as [| d part parts v' v Hlook _ IH]; [done |].
  intros Hd. apply IH. by apply (serializable_lookup d part).
Qed.

Lemma first_sequence_serializable (d : dict) (ks : list string) (l : list value) :
  serializable (VDict d) = true -> first_sequence d ks = Some l ->
  serializable (VList l) = true.
Proof.
  intros Hd. induction ks as [| k ks IH]; [done |].
  cbn [first_sequence]. destruct (dict_lookup k d) as [v |] eqn:E; [| exact IH].
  pose proof (serializable_lookup d k v Hd E) as Hv.
  destruct v; try exact IH. by intros [= <-].
Qed.

Lemma serializable_Dict_app (d1 d2 : dict) :
  serializable (VDict d1) = true -> serializable (VDict d2) = true ->
  serializable (VDict (d1 ++ d2)) = true.
Proof. rewrite !serializable_Dict. apply Forall_app_2. Qed.

Lemma context_of_serializable (doc : dict) :
  serializable (VDict doc) = true -> serializable (VDict (context_of doc)) = true.
Proof.
  intros Hd. apply serializable_Dict. unfold context_of.
  assert (Hfolder : forall field,
    serializable match dict_lookup "folder" doc with
                 | Some (VDict f) => get f field
                 | _ => VNone
                 end = true).
  { intros field. destruct (dict_lookup "folder" doc) as [v |] eqn:E; [| done].
    pose proof (serializable_lookup doc "folder" v Hd E) as Hv.
    destruct v; try done. by apply serializable_get. }
  repeat (apply Forall_cons; split; [cbn [snd]; auto using serializable_get |]).
  apply Forall_nil_2.
Qed.

Lemma message_of_serializable (item : value) :
  serializable item = true -> serializable (message_of item) = true.
Proof. destruct item; try done. apply serializable_get. Qed.

Lemma dashboard_record_serializable (ctx : dict) (item : value) :
  serializable (VDict ctx) = true -> serializable item = true ->
  serializable (dashboard_record ctx item) = true.
Proof.
  intros Hctx Hitem. apply serializable_Dict_app; [| done].
  apply serializable_Dict.
  repeat (apply Forall_cons; split;
          [cbn [snd]; auto using message_of_serializable |]).
  apply Forall_nil_2.
Qed.

Lemma query_record_serializable (ctx q : dict) (item : value) :
  serializable (VDict ctx) = true -> serializable (VDict q) = true ->
  serializable item = true ->
  serializable (query_record ctx q item) = true.
Proof.
  intros Hctx Hq Hitem. apply serializable_Dict_app; [| done].
  apply serializable_Dict.
  repeat (apply Forall_cons; split;
          [cbn [snd]; auto using message_of_serializable, serializable_get |]).
  apply Forall_nil_2.
Qed.

Lemma query_issues_serializable (ctx : dict) (query : value) :
  serializable (VDict ctx) = true -> serializable query = true ->
  Forall (fun x => serializable x = true) (query_issues ctx query).
Proof.
  intros Hctx Hq. destruct query as [| | | | | | q |]; try apply Forall_nil_2.
  cbn [query_issues]. destruct (dict_lookup "issues" q) as [v |] eqn:E;
    [| apply Forall_nil_2].
  pose proof (serializable_lookup q "issues" v Hq E) as Hv.
  destruct v as [| | | | | items | |]; try apply Forall_nil_2.
  apply serializable_List in Hv. apply Forall_forall. intros x Hx.
  apply list_elem_of_In, in_map_iff in Hx as (item & <- & Hitem).
  apply list_elem_of_In in Hitem.
  apply query_record_serializable; try done.
  by apply (proj1 (Forall_forall _ _) Hv).
Qed.

Lemma Forall_flat_map {A B} (P : B -> Prop) (f : A -> list B) (l : list A) :
  (forall x, x ∈ l -> Forall P (f x)) -> Forall P (flat_map f l).
Proof.
  induction l as [| x l IH]; intros H; [constructor |].
  cbn [flat_map]. apply Forall_app_2.
  - apply H. apply list_elem_of_here.
  - apply IH. intros y Hy. apply H. by apply list_elem_of_further.
Qed.

Lemma document_issues_serializable (document : value) :
  serializable document = true ->
  Forall (fun x => serializable x = true) (document_issues document).
Proof.
  intros Hd. destruct document as [| | | | | | doc |]; try apply Forall_nil_2.
  cbn [document_issues]. pose proof (context_of_serializable doc Hd) as Hctx.
  apply Forall_app_2.
  - destruct (dict_lookup "dashboard_filter_issues" doc) as [v |] eqn:E;
      [| apply Forall_nil_2].
    pose proof (serializable_lookup doc _ v Hd E) as Hv.
    destruct v as [| | | | | items | |]; try apply Forall_nil_2.
    apply serializable_List in Hv. apply Forall_forall. intros x Hx.
    apply list_elem_of_In, in_map_iff in Hx as (item & <- & Hitem).
    apply list_elem_of_In in Hitem.
    apply dashboard_record_serializable; [done |].
    by apply (proj1 (Forall_forall _ _) Hv).
  - destruct (dict_lookup "queries_and_issues" doc) as [v |] eqn:E;
      [| apply Forall_nil_2].
    pose proof (serializable_lookup doc _ v Hd E) as Hv.
    destruct v as [| | | | | queries | |]; try apply Forall_nil_2.
    apply serializable_List in Hv. apply Forall_flat_map. intros q Hq.
    apply query_issues_serializable; [done |].
    by apply (proj1 (Forall_forall _ _) Hv).
Qed.

Lemma locate_object_serializable (d : dict) :
  serializable (VDict d) = true -> serializable (VList (locate_object d)) = true.
Proof.
  intros Hd. unfold locate_object.
  destruct (first_sequence d ["issues"; "validation_issues"; "errors"])
    as [l |] eqn:E1; [by apply (first_sequence_serializable d _ l Hd E1) |].
  assert (Htree : serializable (VList (document_tree d)) = true).
  { apply serializable_List. unfold document_tree.
    destruct (dict_lookup "content" d) as [v |] eqn:E; [| apply Forall_nil_2].
    pose proof (serializable_lookup d _ v Hd E) as Hv.
    destruct v as [| | | | | documents | |]; try apply Forall_nil_2.
    apply serializable_List in Hv. apply Forall_flat_map. intros x Hx.
    apply document_issues_serializable.
    by apply (proj1 (Forall_forall _ _) Hv). }
  destruct (document_tree d) as [| x tree]; [| exact Htree].
  destruct (first_sequence d ["content"; "documents"; "items"; "results"])
    as [l |] eqn:E2; [| done].
  by apply (first_sequence_serializable d _ l Hd E2).
Qed.

(** What the locator finds in a JSON payload are JSON values. *)
Lemma _extract_issues_serializable (payload : value) (path : option string)
    (l : list value) :
  serializable payload = true ->
  _extract_issues payload path = Ok (VList l) ->
  serializable (VList l) = true.
Proof.
  intros Hp. destruct (_extract_by_path_cases payload path) as [Hnone | [l' Hl']].
  - rewrite (_extract_issues_no_path _ _ Hnone).
    destruct payload as [| | | | | l0 | d |]; try (by intros [= <-]).
    rewrite _extract_issues_dict. intros [= <-].
    by apply locate_object_serializable.
  - rewrite (_extract_issues_by_path _ _ _ Hl'). intros [= <-].
    destruct path as [p |]; [| discriminate].
    unfold _extract_by_path in Hl'.
    destruct (nonempty p); [| discriminate]. cbn [negb] in Hl'.
    destruct (walk_path_ok (split "." p) payload) as [[current |] Hw];
      rewrite Hw in Hl'; cbn [bind] in Hl'; [| discriminate].
    destruct current; try discriminate. injection Hl' as ->.
    apply walk_path_Some in Hw. by apply (resolves_serializable _ _ _ Hw).
Qed.

(** On a JSON payload the whole run from the payload to the report
    returns, whatever the path, the history and the digest. *)
Lemma main_total (sha256_hexdigest : string -> string) (payload : value)
    (issues_path : option string) (previous_issues : list NormalizedIssue)
    (fail_on_new_only : bool) :
  serializable payload = true ->
  exists report status,
    main sha256_hexdigest payload issues_path previous_issues fail_on_new_only
    = Ok (report, status).
Proof.
  intros Hp. unfold main.
  destruct (_extract_issues_total payload issues_path) as [l Hl].
  rewrite Hl. cbn [bind].
  pose proof (_extract_issues_serializable _ _ _ Hp Hl) as Hs.
  apply serializable_List in Hs.
  destruct (_normalize_issues_total sha256_hexdigest l Hs) as [ns ->].
  cbn [bind].
  destruct (_partition_issues ns previous_issues) as [[new existing] resolved].
  destruct fail_on_new_only; eauto.
Qed.

(** Where there is no canonical serialization the id is that of [str] of
    the value, which follows the insertion order of the keys. *)
Example key_order_without_serialization :
  _issue_identity (fun s => s) (VDict [("a", VObject "o" "o"); ("b", VInt 1)])
    = Ok "{'a': o, 'b': 1}" /\
  _issue_identity (fun s => s) (VDict [("b", VInt 1); ("a", VObject "o" "o")])
    = Ok "{'b': 1, 'a': o}".
Proof. split; reflexivity. Qed.

(** * Further properties of the code *)

(** ** The differ and the report *)

Lemma filter_all {A} (P : A -> Prop) `{forall x, Decision (P x)} (l : list A) :
  (forall x, x ∈ l -> P x) -> filter P l = l.
Proof.
  induction l as [| x l IH]; intros HP; [done |].
  rewrite filter_cons_True by (apply HP; apply list_elem_of_here).
  f_equal. apply IH. intros y Hy. apply HP. by apply list_elem_of_further.
Qed.

Lemma filter_none {A} (P : A -> Prop) `{forall x, Decision (P x)} (l : list A) :
  (forall x, x ∈ l -> ~ P x) -> filter P l = [].
Proof.
  induction l as [| x l IH]; intros HP; [done |].
  rewrite filter_cons_False by (apply HP; apply list_elem_of_here).
  apply IH. intros y Hy. apply HP. by apply list_elem_of_further.
Qed.


(** What [main] returns, read backwards. *)
Lemma main_inv (sha256_hexdigest : string -> string) (payload : value)
    (issues_path : option string) (previous_issues : list NormalizedIssue)
    (fail_on_new_only : bool) (report : Report) (status : Z) :
  main sha256_hexdigest payload issues_path previous_issues fail_on_new_only
    = Ok (report, status) ->
  exists l normalized,
    _extract_issues payload issues_path = Ok (VList l) /\
    _normalize_issues sha256_hexdigest (VList l) = Ok normalized /\
    let '(new, existing, resolved) :=
      _partition_issues normalized previous_issues in
    report = {| total_issues := length normalized;
                new_issues := length new;
                existing_issues := length existing;
                resolved_issues := length resolved;
                issues := normalized;
                new_issue_samples := take 20 new;
                existing_issue_samples := take 20 existing;
                resolved_issue_samples := take 20 resolved |} /\
    status = (if fail_on_new_only
              then if (0 <? length new)%nat then 1 else 0
              else if (0 <? length normalized)%nat then 1 else 0)%Z.
Proof.
  unfold main. destruct (_extract_issues_total payload issues_path) as [l Hl].
  rewrite Hl. cbn [bind].
  destruct (_normalize_issues sha256_hexdigest (VList l)) as [ns | e] eqn:Hns;
    cbn [bind]; [| discriminate].
  intros H. exists l, ns. split; [done |]. split; [done |].
  destruct (_partition_issues ns previous_issues) as [[new existing] resolved].
  destruct fail_on_new_only; injection H as <- <-; done.
Qed.



(** The exit status: without [--fail-on-new-only] it is 0 exactly when the
    locator found nothing, with it exactly when the id of every entry is an
    id of the history; it is 1 otherwise. *)
Theorem exit_status (sha256_hexdigest : string -> string) (payload : value)
    (issues_path : option string) (previous_issues : list NormalizedIssue)
    (fail_on_new_only : bool) (report : Report) (status : Z) :
  main sha256_hexdigest payload issues_path previous_issues fail_on_new_only
    = Ok (report, status) ->
  (status = 0%Z \/ status = 1%Z) /\
  (fail_on_new_only = false ->
   (status = 0%Z <-> _extract_issues payload issues_path = Ok (VList []))) /\
  (fail_on_new_only = true ->
   (status = 0%Z <->
    forall entry, entry ∈ issues report ->
                  Issue.id entry ∈ Issue.id <$> previous_issues)).
Proof.
  intros H. apply main_inv in H as (l & ns & Hl & Hns & H).
  rewrite _partition_issues_eq in H. destruct H as [-> ->]. cbn [issues].
  split; [by destruct fail_on_new_only, (0 <? _)%nat; auto |].
  split; intros ->.
  - apply _normalize_issues_list in Hns. apply Forall2_length in Hns.
    rewrite Hl, <- Hns. destruct l as [| x l]; cbn; split; try done.
  - destruct (filter _ ns) as [| x new] eqn:Hnew; cbn.
    + split; [intros _ | done]. intros entry Hentry.
      destruct (decide (Issue.id entry ∈ Issue.id <$> previous_issues))
        as [Hin | Hout]; [done |].
      assert (Hf : entry ∈ filter
        (fun item => Issue.id item ∉ Issue.id <$> previous_issues) ns)
        by by apply list_elem_of_filter.
      rewrite Hnew in Hf. by apply elem_of_nil in Hf.
    + split; [done |]. intros Hall. exfalso.
      assert (Hx : x ∈ filter
        (fun item => Issue.id item ∉ Issue.id <$> previous_issues) ns)
        by (rewrite Hnew; apply list_elem_of_here).
      apply list_elem_of_filter in Hx as [Hout Hin]. by apply Hout, Hall.
Qed.

Lemma exit_status_witness :
  exists report,
    main (fun s => s) (VDict [("issues", VList [VStr "known"])]) None
         [Issue.Build "known" "known" (VStr "known")] true
    = Ok (report, 0%Z) /\
    forall entry, entry ∈ issues report ->
                  Issue.id entry ∈ Issue.id <$> [Issue.Build "known" "known" (VStr "known")].
Proof.
  assert (H : exists report,
    main (fun s => s) (VDict [("issues", VList [VStr "known"])]) None
         [Issue.Build "known" "known" (VStr "known")] true
    = Ok (report, 0%Z)).
  { eexists. vm_compute. reflexivity. }
  destruct H as [report Hmain]. exists report. split; [exact Hmain |].
  exact (proj1 (proj2 (proj2 (exit_status _ _ _ _ _ _ _ Hmain)) eq_refl) eq_refl).
Defined.

Lemma _partition_issues_self (current : list NormalizedIssue) :
  _partition_issues current current = ([], current, []).
Proof.
  rewrite _partition_issues_eq.
  assert (Hin : forall x, x ∈ current -> Issue.id x ∈ Issue.id <$> current)
    by (intros x Hx; by apply list_elem_of_fmap_2).
  rewrite (filter_none (fun item => Issue.id item ∉ Issue.id <$> current))
    by (intros x Hx Hn; by apply Hn, Hin).
  by rewrite (filter_all (fun item => Issue.id item ∈ Issue.id <$> current)).
Qed.

(** A second run over the same payload, with the entries of the first run
    as its history, reports every entry as existing, none as new or
    resolved, and exits with 0 under [--fail-on-new-only]. *)
Theorem rerun_against_own_history (sha256_hexdigest : string -> string)
    (payload : value) (issues_path : option string)
    (previous_issues : list NormalizedIssue) (fail_on_new_only : bool)
    (report : Report) (status : Z) :
  main sha256_hexdigest payload issues_path previous_issues fail_on_new_only
    = Ok (report, status) ->
  exists report',
    main sha256_hexdigest payload issues_path (issues report) true
      = Ok (report', 0%Z) /\
    issues report' = issues report /\
    new_issues report' = 0 /\
    existing_issues report' = total_issues report /\
    resolved_issues report' = 0.
Proof.
  intros H. apply main_inv in H as (l & ns & Hl & Hns & H).
  destruct (_partition_issues ns previous_issues) as [[new existing] resolved].
  destruct H as [-> _]. cbn [issues total_issues].
  unfold main. rewrite Hl. cbn [bind]. rewrite Hns. cbn [bind].
  rewrite _partition_issues_self. cbn. eexists. by repeat split.
Qed.

Lemma rerun_against_own_history_witness :
  exists report report',
    main (fun s => s) (VList [VStr "a"; VInt 3]) None [] false = Ok (report, 1%Z) /\
    main (fun s => s) (VList [VStr "a"; VInt 3]) None (issues report) true
      = Ok (report', 0%Z) /\
    new_issues report' = 0 /\ existing_issues report' = 2.
Proof.
  assert (H : exists report,
    main (fun s => s) (VList [VStr "a"; VInt 3]) None [] false = Ok (report, 1%Z) /\
    total_issues report = 2).
  { eexists. split; vm_compute; reflexivity. }
  destruct H as (report & Hmain & Htotal).
  destruct (rerun_against_own_history _ _ _ _ _ _ _ Hmain)
    as (report' & Hmain' & _ & Hnew & Hex & _).
  exists report, report'. rewrite Hex, Htotal. by repeat split.
Defined.

(** The differ reads the history through its set of ids only: two
    histories with the same ids, in any order, with repeats or with other
    summaries and raw values, give the same new and existing entries. *)
Theorem history_matters_by_ids (current previous1 previous2 : list NormalizedIssue) :
  (forall i, i ∈ Issue.id <$> previous1 <-> i ∈ Issue.id <$> previous2) ->
  (_partition_issues current previous1).1 =
  (_partition_issues current previous2).1.
Proof.
  intros Hids. rewrite !_partition_issues_eq. cbn [fst].
  f_equal; apply list_filter_iff; intros x; by rewrite Hids.
Qed.

Lemma history_matters_by_ids_witness :
  let current := [Issue.Build "a" "s" VNone; Issue.Build "b" "s" VNone] in
  let previous1 := [Issue.Build "a" "old" (VInt 1)] in
  let previous2 := [Issue.Build "a" "x" VNone; Issue.Build "a" "y" VNone] in
  (forall i, i ∈ Issue.id <$> previous1 <-> i ∈ Issue.id <$> previous2) /\
  (_partition_issues current previous1).1 =
  (_partition_issues current previous2).1.
Proof.
  intros current previous1 previous2.
  assert (H : forall i, i ∈ Issue.id <$> previous1 <-> i ∈ Issue.id <$> previous2).
  { intros i. cbn. rewrite list_elem_of_singleton, !elem_of_cons.
    split; [intros ->; by left | intros [-> | [-> | H]]; [done | done |]].
    by apply elem_of_nil in H. }
  split; [exact H |]. exact (history_matters_by_ids current previous1 previous2 H).
Defined.

(** ** The locator off the beaten path *)

Lemma split_cons (sep : ascii) (s : string) :
  exists p ps, split sep s = p :: ps /\ contains_char sep p = false.
Proof.
  induction s as [| c s (p & ps & IH & Hp)]; [by exists EmptyString, [] |].
  cbn [split]. destruct (Ascii.eqb c sep) eqn:Hc.
  - by exists EmptyString, (split sep s).
  - rewrite IH. exists (String c p), ps. split; [done |].
    unfold contains_char in *. cbn [list_ascii_of_string existsb].
    rewrite Hp, orb_false_r. by rewrite Ascii.eqb_sym.
Qed.

Lemma split_app (sep : ascii) (k rest : string) :
  contains_char sep k = false ->
  split sep (k +:+ String sep rest) = k :: split sep rest.
Proof.
  unfold contains_char.
  induction k as [| c k IH]; cbn [list_ascii_of_string existsb]; intros Hk.
  - change (split sep (String sep rest) = EmptyString :: split sep rest).
    cbn [split]. by rewrite Ascii.eqb_refl.
  - change (split sep (String c (k +:+ String sep rest))
            = String c k :: split sep rest).
    apply orb_false_elim in Hk as [Hc Hk]. rewrite Ascii.eqb_sym in Hc.
    cbn [split]. rewrite Hc. by rewrite (IH Hk).
Qed.

Lemma _extract_by_path_not_dict (payload : value) (path : option string) :
  isinstance_dict payload = false -> _extract_by_path payload path = Ok VNone.
Proof.
  intros Hd. destruct path as [p |]; [| done]. unfold _extract_by_path.
  destruct (nonempty p); [| done]. cbn [negb].
  destruct (split_cons "." p) as (part & parts & -> & _).
  by rewrite walk_path_not_dict.
Qed.

Lemma _extract_issues_not_dict (payload : value) (path : option string) :
  isinstance_dict payload = false ->
  _extract_issues payload path =
  Ok (if isinstance_list payload then payload else VList []).
Proof.
  intros Hd. unfold _extract_issues.
  rewrite _extract_by_path_not_dict by done. cbn [bind is_None negb].
  destruct (isinstance_list payload); [done |]. by rewrite Hd.
Qed.

(** The path only matters for an object: a list payload is returned as it
    is and any other payload that is not an object gives the empty list,
    whatever the path. *)
Theorem path_ignored_off_objects (payload : value) (path : option string) :
  isinstance_dict payload = false ->
  _extract_issues payload path =
  Ok (if isinstance_list payload then payload else VList []).
Proof.
  intros Hd. unfold _extract_issues.
  destruct path as [p |]; cbn [_extract_by_path bind is_None negb].
  - destruct (nonempty p); cbn [negb bind is_None];
      [| destruct (isinstance_list payload); [done | by rewrite Hd]].
    destruct (split_cons "." p) as (part & parts & -> & _).
    rewrite walk_path_not_dict by done. cbn [bind is_None negb].
    destruct (isinstance_list payload); [done | by rewrite Hd].
  - destruct (isinstance_list payload); [done | by rewrite Hd].
Qed.

Lemma path_ignored_off_objects_witness :
  isinstance_dict (VList [VDict [("issues", VList [])]]) = false /\
  _extract_issues (VList [VDict [("issues", VList [])]]) (Some "issues")
  = Ok (VList [VDict [("issues", VList [])]]).
Proof.
  split; [reflexivity |].
  exact (path_ignored_off_objects (VList [VDict [("issues", VList [])]])
           (Some "issues") eq_refl).
Defined.

(** Locating again in what the locator returned changes nothing. *)
Theorem locate_again (payload : value) (path path' : option string) (r : value) :
  _extract_issues payload path = Ok r -> _extract_issues r path' = Ok r.
Proof.
  intros H. destruct (_extract_issues_total payload path) as [l Hl].
  rewrite Hl in H. injection H as <-.
  by rewrite _extract_issues_not_dict.
Qed.

Lemma locate_again_witness :
  _extract_issues (VDict [("errors", VList [VDict [("errors", VList [])]])]) None
    = Ok (VList [VDict [("errors", VList [])]]) /\
  _extract_issues (VList [VDict [("errors", VList [])]]) (Some "errors")
    = Ok (VList [VDict [("errors", VList [])]]).
Proof.
  split; [reflexivity |].
  exact (locate_again (VDict [("errors", VList [VDict [("errors", VList [])]])])
           None (Some "errors") _ eq_refl).
Defined.

(** A path is followed one field at a time: [k.rest] on an object is
    [rest] on its field [k], and nothing when it has no field [k]. *)
Theorem path_descends (d : dict) (k rest : string) :
  contains_char "." k = false ->
  rest <> EmptyString ->
  _extract_by_path (VDict d) (Some (k +:+ String "." rest)) =
  match dict_lookup k d with
  | Some v => _extract_by_path v (Some rest)
  | None => Ok VNone
  end.
Proof.
  intros Hk Hrest. unfold _extract_by_path.
  assert (Hne : nonempty (k +:+ String "." rest) = true) by by destruct k.
  rewrite Hne. cbn [negb]. rewrite split_app by done. rewrite walk_path_dict.
  destruct (dict_lookup k d) as [v |]; [| done].
  by destruct rest.
Qed.

Lemma path_descends_witness :
  contains_char "." "data" = false /\
  "problems.open" <> EmptyString /\
  _extract_by_path
    (VDict [("data", VDict [("problems", VDict [("open", VList [VInt 1])])])])
    (Some "data.problems.open") =
  _extract_by_path (VDict [("problems", VDict [("open", VList [VInt 1])])])
    (Some "problems.open").
Proof.
  split; [reflexivity |]. split; [discriminate |].
  exact (path_descends
           [("data", VDict [("problems", VDict [("open", VList [VInt 1])])])]
           "data" "problems.open" eq_refl ltac:(discriminate)).
Defined.

(** A field whose name has a dot in it cannot be addressed: an entry
    under such a name changes the result for no path. *)
Theorem dotted_key_unreachable (d : dict) (k : string) (v : value)
    (path : option string) :
  contains_char "." k = true ->
  _extract_by_path (VDict ((k, v) :: d)) path = _extract_by_path (VDict d) path.
Proof.
  intros Hk. destruct path as [p |]; [| done]. unfold _extract_by_path.
  destruct (nonempty p); [| done]. cbn [negb].
  destruct (split_cons "." p) as (part & parts & -> & Hpart).
  rewrite !walk_path_dict. cbn [dict_lookup].
  destruct (String.eqb_spec part k) as [-> | Hne]; [congruence | done].
Qed.

Lemma dotted_key_unreachable_witness :
  contains_char "." "data.problems" = true /\
  _extract_by_path (VDict [("data.problems", VList [VInt 1])]) (Some "data.problems")
  = Ok VNone.
Proof.
  split; [reflexivity |].
  exact (dotted_key_unreachable [] "data.problems" (VList [VInt 1])
           (Some "data.problems") eq_refl).
Defined.

(** ** Blank strings *)

Lemma nonempty_rstrip (s : string) : nonempty (rstrip s) = has_ink s.
Proof.
  unfold has_ink. induction s as [| c s IH]; [done |].
  cbn [rstrip list_ascii_of_string existsb]. rewrite <- IH.
  destruct (rstrip s); [| by rewrite orb_true_r].
  by destruct (is_space c).
Qed.

Lemma has_ink_lstrip (s : string) : has_ink (lstrip s) = has_ink s.
Proof.
  unfold has_ink. induction s as [| c s IH]; [done |].
  cbn [lstrip]. destruct (is_space c) eqn:Hc; [| done].
  cbn [list_ascii_of_string existsb]. by rewrite Hc, IH.
Qed.

(** [s.strip()] is true exactly when [s] is not blank. *)
Lemma nonempty_strip (s : string) : nonempty (strip s) = has_ink s.
Proof. unfold strip. by rewrite nonempty_rstrip, has_ink_lstrip. Qed.

Lemma list_ascii_of_string_app (s1 s2 : string) :
  list_ascii_of_string (s1 +:+ s2) =
  list_ascii_of_string s1 ++ list_ascii_of_string s2.
Proof.
  induction s1 as [| c s1 IH]; [done |].
  change (String c s1 +:+ s2) with (String c (s1 +:+ s2)).
  cbn [list_ascii_of_string app]. by rewrite IH.
Qed.

Lemma has_ink_app (s1 s2 : string) :
  has_ink (s1 +:+ s2) = has_ink s1 || has_ink s2.
Proof. unfold has_ink. by rewrite list_ascii_of_string_app, existsb_app. Qed.

(** ** The summary beyond the message rule *)

Lemma first_text_key_eq (d : dict) (ks : list string) :
  first_text_key (VDict d) ks = Ok (first_text d ks).
Proof.
  induction ks as [| k ks IH]; [done |].
  cbn [first_text_key first_text]. rewrite py_get_dict. cbn [bind]. unfold get.
  destruct (dict_lookup k d) as [[| | | | s | | |] |]; cbn [default from_option id];
    try exact IH.
  rewrite nonempty_strip. by destruct (has_ink s).
Qed.

Lemma first_text_ink (d : dict) (ks : list string) (s : string) :
  first_text d ks = Some s -> has_ink s = true.
Proof.
  induction ks as [| k ks IH]; [done |]. cbn [first_text].
  destruct (dict_lookup k d) as [[| | | | s' | | |] |]; try exact IH.
  destruct (has_ink s') eqn:Hs; [| exact IH]. by intros [= <-].
Qed.

Lemma _issue_summary_fallback (d : dict) :
  (forall m, coerced_message d = Some m -> has_ink m = false) ->
  _issue_summary (VDict d) =
  match first_text d ["title"; "name"; "path"; "field"] with
  | Some s => Ok s
  | None => json_dumps true ", " ": " (VDict d)
  end.
Proof.
  intros Hm. rewrite _issue_summary_no_message.
  - rewrite first_text_key_eq. cbn [bind]. by destruct (first_text d _).
  - intros m Hco. rewrite nonempty_strip. by apply Hm.
Qed.

(** An object issue with no message, or a blank one, is summarized by the
    first of [title], [name], [path], [field] that is a string and not
    blank, returned as it is, and failing that by [json.dumps] of the
    whole object with sorted keys. *)
Theorem summary_without_message (d : dict) :
  (forall m, coerced_message d = Some m -> has_ink m = false) ->
  _issue_summary (VDict d) =
  match first_text d ["title"; "name"; "path"; "field"] with
  | Some s => Ok s
  | None => json_dumps true ", " ": " (VDict d)
  end.
Proof.
  intros Hm. rewrite _issue_summary_no_message.
  - rewrite first_text_key_eq. cbn [bind].
    by destruct (first_text d ["title"; "name"; "path"; "field"]).
  - intros m Hco. rewrite nonempty_strip. by apply Hm.
Qed.

Lemma summary_without_message_witness :
  let d := [("message", VStr "  "); ("title", VInt 3);
            ("name", VStr " n "); ("path", VStr "p")] in
  (forall m, coerced_message d = Some m -> has_ink m = false) /\
  _issue_summary (VDict d) = Ok " n ".
Proof.
  intros d.
  assert (H : forall m, coerced_message d = Some m -> has_ink m = false).
  { intros m Hm. injection Hm as <-. reflexivity. }
  split; [exact H |]. exact (summary_without_message d H).
Defined.

(** Whatever rule gives it, the summary of an object issue has a
    character that is not white space. *)
Theorem summary_of_object_not_blank (d : dict) (s : string) :
  _issue_summary (VDict d) = Ok s -> has_ink s = true.
Proof.
  destruct (coerced_message d) as [m |] eqn:Hm.
  - destruct (has_ink m) eqn:Hink.
    + rewrite (_issue_summary_message d m Hm) by by rewrite nonempty_strip.
      intros [= <-]. unfold summary_with_message, prefixed.
      destruct (_ ++ _); [done |].
      by rewrite !has_ink_app, Hink, !orb_true_r.
    + rewrite _issue_summary_fallback by (intros m' Hm'; congruence).
      destruct (first_text d _) as [t |] eqn:Ht.
      * intros [= <-]. by apply first_text_ink in Ht.
      * unfold json_dumps. destruct (serializable (VDict d)); [| done].
        intros [= <-]. cbn [json_encode]. by rewrite has_ink_app.
  - rewrite _issue_summary_fallback by (intros m' Hm'; congruence).
    destruct (first_text d _) as [t |] eqn:Ht.
    + intros [= <-]. by apply first_text_ink in Ht.
    + unfold json_dumps. destruct (serializable (VDict d)); [| done].
      intros [= <-]. cbn [json_encode]. by rewrite has_ink_app.
Qed.

Lemma summary_of_object_not_blank_witness :
  _issue_summary (VDict [("message", VStr " "); ("title", VStr "")]) =
    Ok (json_encode true ", " ": " (VDict [("message", VStr " "); ("title", VStr "")])) /\
  has_ink (json_encode true ", " ": "
             (VDict [("message", VStr " "); ("title", VStr "")])) = true.
Proof.
  split; [reflexivity |].
  exact (summary_of_object_not_blank
           [("message", VStr " "); ("title", VStr "")] _ eq_refl).
Defined.

(** ** Normalization fails as a whole *)

Section NormalizerFailure.

Variable sha256_hexdigest : string -> string.





End NormalizerFailure.

Example one_bad_issue_loses_the_rest :
  _normalize_issues (fun s => s)
    (VList [VStr "fine"; VDict [("detail", VObject "o" "o")]; VStr "also fine"])
  = Raise TypeError.
Proof. reflexivity. Qed.

(** ** What document-tree extraction collects *)

Lemma elem_of_flat_map {A B} (f : A -> list B) (l : list A) (y : B) :
  y ∈ flat_map f l <-> exists x, x ∈ l /\ y ∈ f x.
Proof.
  rewrite list_elem_of_In, in_flat_map. split; intros (x & Hx & Hy); exists x.
  - by rewrite !list_elem_of_In.
  - by rewrite <- !list_elem_of_In.
Qed.

Lemma elem_of_map {A B} (f : A -> B) (l : list A) (y : B) :
  y ∈ map f l <-> exists x, y = f x /\ x ∈ l.
Proof.
  rewrite list_elem_of_In, in_map_iff. split; intros (x & Hx & Hy); exists x.
  - by rewrite list_elem_of_In.
  - by rewrite <- list_elem_of_In.
Qed.

Lemma elem_of_document_tree (d : dict) (r : value) :
  r ∈ document_tree d <->
  exists docs doc,
    dict_lookup "content" d = Some (VList docs) /\ VDict doc ∈ docs /\
    ((exists items item,
        dict_lookup "dashboard_filter_issues" doc = Some (VList items) /\
        item ∈ items /\ r = dashboard_record (context_of doc) item) \/
     (exists queries q items item,
        dict_lookup "queries_and_issues" doc = Some (VList queries) /\
        VDict q ∈ queries /\
        dict_lookup "issues" q = Some (VList items) /\
        item ∈ items /\ r = query_record (context_of doc) q item)).
Proof.
  unfold document_tree. split.
  - destruct (dict_lookup "content" d) as [[| | | | | docs | |] |];
      try (intros H; by apply elem_of_nil in H).
    rewrite elem_of_flat_map. intros (document & Hdoc & Hr).
    destruct document as [| | | | | | doc |];
      try (by apply elem_of_nil in Hr).
    exists docs, doc. split; [done |]. split; [done |].
    cbn [document_issues] in Hr. apply elem_of_app in Hr as [Hr | Hr].
    + left.
      destruct (dict_lookup "dashboard_filter_issues" doc) as [[| | | | | items | |] |];
        try (by apply elem_of_nil in Hr).
      apply elem_of_map in Hr as (item & -> & Hitem). by exists items, item.
    + right.
      destruct (dict_lookup "queries_and_issues" doc) as [[| | | | | queries | |] |];
        try (by apply elem_of_nil in Hr).
      apply elem_of_flat_map in Hr as (query & Hq & Hr).
      destruct query as [| | | | | | q |]; try (by apply elem_of_nil in Hr).
      cbn [query_issues] in Hr.
      destruct (dict_lookup "issues" q) as [[| | | | | items | |] |] eqn:Hi;
        try (by apply elem_of_nil in Hr).
      apply elem_of_map in Hr as (item & -> & Hitem).
      by exists queries, q, items, item.
  - intros (docs & doc & -> & Hdoc & H). apply elem_of_flat_map.
    exists (VDict doc). split; [done |]. cbn [document_issues].
    apply elem_of_app.
    destruct H as [(items & item & -> & Hitem & ->)
                  | (queries & q & items & item & -> & Hq & Hi & Hitem & ->)].
    + left. apply elem_of_map. by exists item.
    + right. apply elem_of_flat_map. exists (VDict q). split; [done |].
      cbn [query_issues]. rewrite Hi. apply elem_of_map. by exists item.
Qed.

(** Every collected issue is an object of one of two kinds, with the keys
    of its kind in a fixed order, tagged
    [dashboard_filter] or [query], and its [message] is the [message]
    field of its [raw_issue] when that is an object and the [raw_issue]
    itself otherwise. *)
Theorem collected_issues_shape (d : dict) (issues : list value) :
  _collect_content_issues (VDict d) = Ok issues ->
  Forall collected_shape issues.
Proof.
  rewrite _collect_content_issues_eq. intros [= <-].
  apply Forall_forall. intros r Hr.
  apply elem_of_document_tree in Hr as (docs & doc & _ & _ & H).
  destruct H as [(items & item & _ & _ & ->)
                | (queries & q & items & item & _ & _ & _ & _ & ->)].
  - eexists. split; [reflexivity |]. split; [by left | reflexivity].
  - eexists. split; [reflexivity |]. split; [by right | reflexivity].
Qed.

Lemma collected_issues_shape_witness :
  let d := [("content",
             VList [VDict [("name", VStr "Doc1");
                           ("dashboard_filter_issues", VList [VStr "stale"]);
                           ("queries_and_issues",
                            VList [VDict [("query_name", VStr "q");
                                          ("issues",
                                           VList [VDict [("message", VInt 7)]])]])]])] in
  exists r1 r2,
    _collect_content_issues (VDict d) = Ok [r1; r2] /\
    Forall collected_shape [r1; r2].
Proof.
  intros d.
  assert (H : exists r1 r2, _collect_content_issues (VDict d) = Ok [r1; r2]).
  { eexists _, _. reflexivity. }
  destruct H as (r1 & r2 & H). exists r1, r2. split; [exact H |].
  exact (collected_issues_shape d [r1; r2] H).
Defined.

(** A dashboard-filter item with a message [m] that is not blank, in a
    document whose name [n] is not blank, is collected as an issue that
    keeps the item as [raw_issue] and is summarized as [n], stripped, a
    colon and [m]. *)
Theorem collected_dashboard_summary (d doc : dict) (docs items : list value)
    (item : value) (n m : string) :
  dict_lookup "content" d = Some (VList docs) ->
  VDict doc ∈ docs ->
  dict_lookup "dashboard_filter_issues" doc = Some (VList items) ->
  item ∈ items ->
  dict_lookup "name" doc = Some (VStr n) -> has_ink n = true ->
  message_of item = VStr m -> has_ink m = true ->
  exists issues fields,
    _collect_content_issues (VDict d) = Ok issues /\
    VDict fields ∈ issues /\
    dict_lookup "raw_issue" fields = Some item /\
    _issue_summary (VDict fields) = Ok (strip n +:+ ": " +:+ m).
Proof.
  intros Hc Hdoc Hitems Hitem Hn Hnink Hm Hmink.
  eexists (document_tree d), _.
  split; [apply _collect_content_issues_eq |]. split.
  { apply elem_of_document_tree. exists docs, doc. split; [done |].
    split; [done |]. left. exists items, item. by repeat split. }
  split; [reflexivity |].
  rewrite (_issue_summary_message _ m).
  - unfold summary_with_message, stripped_field.
    change (dict_lookup "document_name" _) with (Some (get doc "name")).
    change (dict_lookup "query_name" _) with (@None value).
    unfold get. rewrite Hn. cbn [default from_option id].
    by rewrite nonempty_strip, Hnink.
  - unfold coerced_message.
    change (dict_lookup "message" _) with (Some (message_of item)).
    by rewrite Hm.
  - by rewrite nonempty_strip.
Qed.

Lemma collected_dashboard_summary_witness :
  let doc := [("name", VStr " Sales ");
              ("dashboard_filter_issues",
               VList [VStr "ok"; VDict [("message", VStr "bad filter")]])] in
  exists issues fields,
    _collect_content_issues (VDict [("content", VList [VDict doc])]) = Ok issues /\
    VDict fields ∈ issues /\
    dict_lookup "raw_issue" fields = Some (VDict [("message", VStr "bad filter")]) /\
    _issue_summary (VDict fields) = Ok "Sales: bad filter".
Proof.
  intros doc.
  refine (collected_dashboard_summary
            [("content", VList [VDict doc])] doc [VDict doc]
            [VStr "ok"; VDict [("message", VStr "bad filter")]]
            (VDict [("message", VStr "bad filter")]) " Sales " "bad filter"
            eq_refl _ eq_refl _ eq_refl eq_refl eq_refl eq_refl).
  - apply list_elem_of_here.
  - apply list_elem_of_further, list_elem_of_here.
Defined.

(** The same for an item of a query: the prefix is the name of the
    document and, when it is a string that is not blank, the name of the
    query, both stripped. *)
Theorem collected_query_summary (d doc q : dict) (docs queries items : list value)
    (item : value) (n m : string) :
  dict_lookup "content" d = Some (VList docs) ->
  VDict doc ∈ docs ->
  dict_lookup "queries_and_issues" doc = Some (VList queries) ->
  VDict q ∈ queries ->
  dict_lookup "issues" q = Some (VList items) ->
  item ∈ items ->
  dict_lookup "name" doc = Some (VStr n) -> has_ink n = true ->
  message_of item = VStr m -> has_ink m = true ->
  exists issues fields,
    _collect_content_issues (VDict d) = Ok issues /\
    VDict fields ∈ issues /\
    dict_lookup "raw_issue" fields = Some item /\
    _issue_summary (VDict fields) =
      Ok (join " / " (strip n :: stripped_field q "query_name") +:+ ": " +:+ m).
Proof.
  intros Hc Hdoc Hqs Hq Hitems Hitem Hn Hnink Hm Hmink.
  eexists (document_tree d), _.
  split; [apply _collect_content_issues_eq |]. split.
  { apply elem_of_document_tree. exists docs, doc. split; [done |].
    split; [done |]. right. exists queries, q, items, item. by repeat split. }
  split; [reflexivity |].
  rewrite (_issue_summary_message _ m).
  - unfold summary_with_message, stripped_field at 1 2.
    change (dict_lookup "document_name" _) with (Some (get doc "name")).
    change (dict_lookup "query_name" (_ ++ _)) with (Some (get q "query_name")).
    unfold get at 1. rewrite Hn. cbn [default from_option id].
    rewrite nonempty_strip, Hnink.
    assert (Hqn : match get q "query_name" with
                  | VStr s => if nonempty (strip s) then [strip s] else []
                  | _ => []
                  end = stripped_field q "query_name").
    { unfold stripped_field, get. by destruct (dict_lookup "query_name" q) as [[] |]. }
    by rewrite Hqn.
  - unfold coerced_message.
    change (dict_lookup "message" _) with (Some (message_of item)).
    by rewrite Hm.
  - by rewrite nonempty_strip.
Qed.

Lemma collected_query_summary_witness :
  let q := [("query_name", VStr "by region"); ("issues", VList [VStr "no rows"])] in
  let doc := [("name", VStr "Sales"); ("queries_and_issues", VList [VDict q])] in
  exists issues fields,
    _collect_content_issues (VDict [("content", VList [VDict doc])]) = Ok issues /\
    VDict fields ∈ issues /\
    dict_lookup "raw_issue" fields = Some (VStr "no rows") /\
    _issue_summary (VDict fields) = Ok "Sales / by region: no rows".
Proof.
  intros q doc.
  refine (collected_query_summary
            [("content", VList [VDict doc])] doc q [VDict doc] [VDict q]
            [VStr "no rows"] (VStr "no rows") "Sales" "no rows"
            eq_refl _ eq_refl _ eq_refl _ eq_refl eq_refl eq_refl eq_refl);
    apply list_elem_of_here.
Defined.

(** ** Stripping *)

Lemma lstrip_id (s : string) : starts_with_ink s = true -> lstrip s = s.
Proof.
  destruct s as [| c s]; [done |]. cbn [starts_with_ink lstrip].
  by destruct (is_space c).
Qed.

Lemma rstrip_id (s : string) : ends_with_ink s = true -> rstrip s = s.
Proof.
  induction s as [| c s IH]; [done |]. cbn [ends_with_ink rstrip].
  destruct s as [| c' s]; [cbn [rstrip]; by destruct (is_space c) |].
  intros H. by rewrite (IH H).
Qed.

Lemma rstrip_rstrip (s : string) : rstrip (rstrip s) = rstrip s.
Proof.
  induction s as [| c s IH]; [done |]. cbn [rstrip].
  destruct (rstrip s) as [| c' r] eqn:Hr.
  - destruct (is_space c) eqn:Hc; [done |]. cbn [rstrip]. by rewrite Hc.
  - cbn [rstrip] in *. by rewrite IH.
Qed.

Lemma lstrip_cases (s : string) :
  lstrip s = EmptyString \/ starts_with_ink (lstrip s) = true.
Proof.
  induction s as [| c s IH]; [by left |]. cbn [lstrip].
  destruct (is_space c) eqn:Hc; [done |]. right. cbn [starts_with_ink].
  by rewrite Hc.
Qed.

Lemma lstrip_rstrip (s : string) :
  starts_with_ink s = true -> lstrip (rstrip s) = rstrip s.
Proof.
  destruct s as [| c s]; [done |]. cbn [starts_with_ink rstrip]. intros Hc.
  apply negb_true_iff in Hc.
  destruct (rstrip s); rewrite ?Hc; cbn [lstrip]; by rewrite Hc.
Qed.

(** Stripping twice is stripping once. *)
Lemma strip_strip (s : string) : strip (strip s) = strip s.
Proof.
  unfold strip. destruct (lstrip_cases s) as [-> | Hink]; [done |].
  by rewrite (lstrip_rstrip _ Hink), rstrip_rstrip.
Qed.

Lemma rstrip_blank (s : string) : has_ink s = false -> rstrip s = EmptyString.
Proof.
  intros H. rewrite <- nonempty_rstrip in H. by destruct (rstrip s).
Qed.

Lemma rstrip_app_blank (a b : string) :
  has_ink b = false -> rstrip (a +:+ b) = rstrip a.
Proof.
  intros Hb. induction a as [| c a IH]; [by apply rstrip_blank |].
  change (String c a +:+ b) with (String c (a +:+ b)).
  cbn [rstrip]. by rewrite IH.
Qed.

Lemma lstrip_app (a b : string) :
  has_ink a = true -> lstrip (a +:+ b) = lstrip a +:+ b.
Proof.
  unfold has_ink. induction a as [| c a IH]; [done |].
  change (String c a +:+ b) with (String c (a +:+ b)).
  cbn [list_ascii_of_string existsb lstrip].
  destruct (is_space c); [exact IH | done].
Qed.

Lemma starts_with_ink_app (a b : string) :
  starts_with_ink a = true -> starts_with_ink (a +:+ b) = true.
Proof. by destruct a. Qed.

Lemma ends_with_ink_app (a b : string) :
  ends_with_ink b = true -> ends_with_ink (a +:+ b) = true.
Proof.
  intros Hb. induction a as [| c a IH]; [done |].
  change (String c a +:+ b) with (String c (a +:+ b)).
  cbn [ends_with_ink]. destruct (a +:+ b) eqn:E; [| exact IH].
  by destruct a, b.
Qed.

Lemma strip_id (s : string) :
  starts_with_ink s = true -> ends_with_ink s = true -> strip s = s.
Proof. intros H1 H2. unfold strip. by rewrite lstrip_id, rstrip_id. Qed.

(** ** Headers and validation *)

(** With an empty scheme the header carries the key as it is.  With a
    scheme it carries the scheme, a space and the key, stripped of white
    space at both ends: exactly that text when the scheme begins and the
    key ends with a character that is not white space, and the stripped
    scheme alone when the key is blank. *)
Theorem header_token (api_key auth_header auth_scheme : string) :
  (auth_scheme = EmptyString ->
   _build_headers (Some api_key) auth_header auth_scheme
   = [(auth_header, VStr api_key)]) /\
  (auth_scheme <> EmptyString ->
   exists token,
     _build_headers (Some api_key) auth_header auth_scheme
     = [(auth_header, VStr token)] /\
     strip token = token /\
     (starts_with_ink auth_scheme = true -> ends_with_ink api_key = true ->
      token = auth_scheme +:+ " " +:+ api_key) /\
     (has_ink auth_scheme = true -> has_ink api_key = false ->
      token = strip auth_scheme)).
Proof.
  split; [by intros -> |]. intros Hne. unfold _build_headers.
  destruct auth_scheme as [| c scheme]; [done |]. cbn [nonempty].
  eexists. split; [reflexivity |]. split; [apply strip_strip |].
  change (format_opt (Some api_key)) with api_key. split.
  - intros Hs Hk. apply strip_id.
    + by apply starts_with_ink_app.
    + apply ends_with_ink_app. by apply (ends_with_ink_app " ").
  - intros Hs Hk. unfold strip. rewrite lstrip_app by done.
    apply rstrip_app_blank. by rewrite has_ink_app, Hk.
Qed.

Lemma header_token_witness :
  _build_headers (Some "") "Authorization" "Bearer"
    = [("Authorization", VStr "Bearer")] /\
  _build_headers (Some "k3y") "Authorization" "Bearer"
    = [("Authorization", VStr "Bearer k3y")].
Proof.
  destruct (proj2 (header_token "k3y" "Authorization" "Bearer") ltac:(discriminate))
    as (token & Hh & _ & Htoken & _).
  split; [reflexivity |]. rewrite Hh. by rewrite (Htoken eq_refl eq_refl).
Defined.

(** The arguments pass exactly when the base URL, the model id and the
    API key are all given and not empty; otherwise the run ends with
    [SystemExit] and a message that begins with
    [Missing required values: ]. *)
Theorem validation_passes (args : Args.t) :
  (_validate_args args = Return tt <->
   truthy_opt (Args.base_url args) = true /\
   truthy_opt (Args.model_id args) = true /\
   truthy_opt (Args.api_key args) = true) /\
  (_validate_args args <> Return tt ->
   exists names,
     _validate_args args
     = Raised (SystemExit ("Missing required values: " +:+ names))).
Proof.
  unfold _validate_args.
  destruct (truthy_opt (Args.base_url args)),
           (truthy_opt (Args.model_id args)),
           (truthy_opt (Args.api_key args)); cbn;
    (split; [split; [try discriminate; tauto | intros (? & ? & ?); try discriminate; done]
            | intros H; try done; by eexists ]).
Qed.

Lemma validation_passes_witness :
  let args :=
    Args.Build (Some "https://omni.example") (Some "") None None VNone None
               "Authorization" "Bearer" None 60 "h.json" "h.json" "r.json"
               None false in
  truthy_opt (Args.base_url args) = true /\
  truthy_opt (Args.model_id args) = false /\
  _validate_args args <> Return tt /\
  exists names,
    _validate_args args
    = Raised (SystemExit ("Missing required values: " +:+ names)).
Proof.
  intros args.
  assert (H : _validate_args args <> Return tt) by discriminate.
  split; [reflexivity |]. split; [reflexivity |]. split; [exact H |].
  exact (proj2 (validation_passes args) H).
Defined.

(** ** Branch lookup and fetch *)

Lemma rstrip_char_app (c : ascii) (s : string) :
  rstrip_char c (s +:+ String c EmptyString) = rstrip_char c s.
Proof.
  induction s as [| a s IH].
  - change (EmptyString +:+ String c EmptyString) with (String c EmptyString).
    cbn [rstrip_char]. by rewrite Ascii.eqb_refl.
  - change (String a s +:+ String c EmptyString)
      with (String a (s +:+ String c EmptyString)).
    cbn [rstrip_char]. by rewrite IH.
Qed.

Section ShellProperties.

Variable requests_get : Request.t -> Response.t.

Abbreviation fetch := (_fetch_validator_payload requests_get).
Abbreviation resolve := (_resolve_branch_id requests_get).

Lemma find_branch_set_base_url (b : option string) (args : Args.t)
    (records : list value) :
  find_branch (set_base_url b args) records = find_branch args records.
Proof.
  induction records as [| record records IH]; [done |].
  cbn [find_branch set_base_url Args.model_id Args.branch_name].
  cbn [find_branch set_base_url Args.model_id Args.branch_name] in IH.
  by rewrite IH.
Qed.

Lemma branch_loop_base (fuel : nat) (args1 args2 : Args.t) (headers : dict) :
  (forall cursor, branch_page requests_get args1 headers cursor
                  = branch_page requests_get args2 headers cursor) ->
  forall cursor, branch_loop requests_get fuel args1 headers cursor
                 = branch_loop requests_get fuel args2 headers cursor.
Proof.
  intros Hpage. induction fuel as [| fuel IH]; intros cursor; [done |].
  cbn [branch_loop]. rewrite Hpage.
  by destruct (branch_page requests_get args2 headers cursor).
Qed.

(** A slash at the end of the base URL changes nothing: the validator and
    the branch lookup send the same requests and end the same way. *)
Theorem trailing_slash_ignored (args : Args.t) (b : string) (fuel : nat) :
  fetch (set_base_url (Some (b +:+ "/")) args)
    = fetch (set_base_url (Some b) args) /\
  resolve fuel (set_base_url (Some (b +:+ "/")) args)
    = resolve fuel (set_base_url (Some b) args).
Proof.
  assert (Hbase : base_of (set_base_url (Some (b +:+ "/")) args)
                  = base_of (set_base_url (Some b) args)).
  { unfold base_of. cbn [set_base_url Args.base_url].
    by rewrite rstrip_char_app. }
  split.
  - unfold _fetch_validator_payload. by rewrite Hbase.
  - unfold _resolve_branch_id. cbn [set_base_url Args.branch_id Args.branch_name
      Args.api_key Args.auth_header Args.auth_scheme].
    destruct (truthy (Args.branch_id args)); [done |].
    destruct (truthy_opt (Args.branch_name args)); [| done]. cbn [negb].
    apply branch_loop_base. intros cursor. unfold branch_page. rewrite Hbase.
    destruct (base_of (set_base_url (Some b) args)) as [base | r]; [| done].
    change (Args.timeout (set_base_url (Some (b +:+ "/")) args))
      with (Args.timeout (set_base_url (Some b) args)).
    destruct (requests_get _) as [ok status text [payload | exc]];
      cbn [Response.ok Response.json]; try done.
    destruct ok; cbn [negb]; [| done].
    destruct (lift (py_get_default payload "records" (VList [])))
      as [records | r]; cbn [obind]; [| done].
    destruct (lift (py_iter records)) as [items | r]; cbn [obind]; [| done].
    by rewrite !(find_branch_set_base_url _ args).
Qed.

Lemma find_branch_no_match (args : Args.t) (records : list value) :
  no_match args records ->
  find_branch args records = Return None.
Proof.
  induction 1 as [| x records (r & -> & Hr) _ IH]; [done |].
  cbn [find_branch]. rewrite !py_get_dict. cbn [lift obind].
  unfold record_matches in Hr.
  destruct (py_eq_str (get r "modelKind") "BRANCH"); cbn [negb]; [| exact IH].
  destruct (py_eq_opt (get r "baseModelId") (Args.model_id args));
    cbn [negb]; [| exact IH].
  destruct (py_eq_opt (get r "name") (Args.branch_name args));
    cbn [negb]; [discriminate | exact IH].
Qed.

Lemma find_branch_first (args : Args.t) (before after : list value) (r : dict) :
  no_match args before ->
  record_matches args r = true ->
  find_branch args (before ++ VDict r :: after)
  = Return (Some (get r "id")).
Proof.
  intros Hbefore Hr.
  induction Hbefore as [| x records (r' & -> & Hr') _ IH].
  - cbn [app find_branch]. rewrite !py_get_dict. cbn [lift obind].
    unfold record_matches in Hr.
    apply andb_true_iff in Hr as [Hr Hname].
    apply andb_true_iff in Hr as [Hkind Hbase].
    by rewrite Hkind, Hbase, Hname.
  - cbn [app find_branch]. rewrite !py_get_dict. cbn [lift obind].
    unfold record_matches in Hr'.
    destruct (py_eq_str (get r' "modelKind") "BRANCH"); cbn [negb]; [| exact IH].
    destruct (py_eq_opt (get r' "baseModelId") (Args.model_id args));
      cbn [negb]; [| exact IH].
    destruct (py_eq_opt (get r' "name") (Args.branch_name args));
      cbn [negb]; [discriminate | exact IH].
Qed.

Lemma branch_page_request (args : Args.t) (b : string) (cursor : value) :
  Args.base_url args = Some b ->
  let headers := _build_headers (Args.api_key args) (Args.auth_header args)
                                (Args.auth_scheme args) in
  let response :=
    requests_get (branch_request args (rstrip_char "/" b) cursor) in
  branch_page requests_get args headers cursor =
  if negb (Response.ok response) then
    Returns (Raised (SystemExit
               ("Branch lookup failed: "
                +:+ str_of_int (Response.status_code response)
                +:+ " " +:+ Response.text response)))
  else
    match Response.json response with
    | NotJson exc => Returns (Raised (ValueError exc))
    | Json payload =>
        match (let+ records :=
                 lift (py_get_default payload "records" (VList [])) in
               let+ items := lift (py_iter records) in
               find_branch args items) with
        | Raised r => Returns (Raised r)
        | Return (Some id) => Returns (Return id)
        | Return None =>
            match (let+ page_info :=
                     lift (py_get_default payload "pageInfo" (VDict [])) in
                   lift (py_get page_info "nextCursor")) with
            | Raised r => Returns (Raised r)
            | Return cursor' =>
                if negb (truthy cursor') then Returns (Return VNone)
                else Continues cursor'
            end
        end
    end.
Proof.
  intros Hb. unfold branch_page, base_of, branch_request. rewrite Hb.
  by destruct (truthy cursor).
Qed.

(** The lookup returns the [id] of the first record of the first page
    that is a branch of the model with the name asked for, without asking
    for another page. *)
Theorem lookup_first_match (args : Args.t) (b : string) (p r : dict)
    (before after : list value) (fuel : nat) :
  truthy (Args.branch_id args) = false ->
  truthy_opt (Args.branch_name args) = true ->
  Args.base_url args = Some b ->
  Response.ok (requests_get (branch_request args (rstrip_char "/" b) VNone)) = true ->
  Response.json (requests_get (branch_request args (rstrip_char "/" b) VNone))
    = Json (VDict p) ->
  dict_lookup "records" p = Some (VList (before ++ VDict r :: after)) ->
  no_match args before ->
  record_matches args r = true ->
  resolve (S fuel) args = Some (Return (get r "id")).
Proof.
  intros Hid Hname Hb Hok Hjson Hrecords Hbefore Hr.
  unfold _resolve_branch_id. rewrite Hid, Hname. cbn [negb branch_loop].
  rewrite (branch_page_request args b VNone Hb). cbn zeta.
  rewrite Hok, Hjson. cbn [negb py_get_default]. rewrite Hrecords.
  cbn [lift obind py_iter]. by rewrite find_branch_first.
Qed.

(** While every page holds no match and names a next page, the lookup
    goes on asking: it returns after no number of requests. *)
Theorem lookup_never_ends (args : Args.t) (b : string) (fuel : nat) :
  truthy (Args.branch_id args) = false ->
  truthy_opt (Args.branch_name args) = true ->
  Args.base_url args = Some b ->
  (forall request, page_goes_on args (requests_get request)) ->
  resolve fuel args = None.
Proof.
  intros Hid Hname Hb Hpages.
  unfold _resolve_branch_id. rewrite Hid, Hname. cbn [negb].
  generalize VNone as cursor.
  induction fuel as [| fuel IH]; intros cursor; [done |].
  cbn [branch_loop]. rewrite (branch_page_request args b cursor Hb). cbn zeta.
  destruct (Hpages (branch_request args (rstrip_char "/" b) cursor))
    as (Hok & p & records & page_info & next & Hjson & Hrecords & Hnone
        & Hinfo & Hnext & Htruthy).
  rewrite Hok, Hjson. cbn [negb py_get_default]. rewrite Hrecords, Hinfo.
  cbn [lift obind py_iter]. rewrite find_branch_no_match by done.
  rewrite py_get_dict. unfold get. rewrite Hnext.
  cbn [lift default from_option id]. rewrite Htruthy. cbn [negb]. apply IH.
Qed.

(** How the lookup fails on its first page: a response that is not OK
    ends the run with [SystemExit]; a body that is not JSON raises
    [ValueError], where the validator fetch turns it into [SystemExit];
    and a [pageInfo] that is present but not an object, on a page
    without a match, raises [AttributeError]. *)
Theorem lookup_failures (args : Args.t) (b : string) (fuel : nat) :
  truthy (Args.branch_id args) = false ->
  truthy_opt (Args.branch_name args) = true ->
  Args.base_url args = Some b ->
  let response :=
    requests_get (branch_request args (rstrip_char "/" b) VNone) in
  (Response.ok response = false ->
   resolve (S fuel) args
   = Some (Raised (SystemExit
                     ("Branch lookup failed: "
                      +:+ str_of_int (Response.status_code response)
                      +:+ " " +:+ Response.text response)))) /\
  (forall exc,
     Response.ok response = true -> Response.json response = NotJson exc ->
     resolve (S fuel) args = Some (Raised (ValueError exc))) /\
  (forall p records v,
     Response.ok response = true -> Response.json response = Json (VDict p) ->
     dict_lookup "records" p = Some (VList records) ->
     no_match args records ->
     dict_lookup "pageInfo" p = Some v -> isinstance_dict v = false ->
     resolve (S fuel) args = Some (Raised (Builtin AttributeError))).
Proof.
  intros Hid Hname Hb response.
  assert (Hstep : resolve (S fuel) args =
    match branch_page requests_get args
            (_build_headers (Args.api_key args) (Args.auth_header args)
                            (Args.auth_scheme args)) VNone with
    | Returns r => Some r
    | Continues cursor' =>
        branch_loop requests_get fuel args
          (_build_headers (Args.api_key args) (Args.auth_header args)
                          (Args.auth_scheme args)) cursor'
    end).
  { unfold _resolve_branch_id. by rewrite Hid, Hname. }
  rewrite Hstep, (branch_page_request args b VNone Hb). cbn zeta.
  fold response. split; [| split].
  - by intros ->.
  - intros exc -> ->. done.
  - intros p records v -> -> Hrecords Hnone Hinfo Hv.
    cbn [negb py_get_default]. rewrite Hrecords, Hinfo.
    cbn [lift obind py_iter]. rewrite find_branch_no_match by done.
    by destruct v.
Qed.

End ShellProperties.

Section MainPayload.

Variable requests_get : Request.t -> Response.t.

(** When a branch is asked for by name and the lookup comes back with
    nothing (no match, or a match whose [id] is missing or empty), [main]
    says so and fetches the payload as if no branch had been named: the
    request carries no [branch_id]. *)
Theorem unknown_branch_falls_back (fuel : nat) (args : Args.t) (r : value) :
  _validate_args args = Return tt ->
  truthy (Args.branch_id args) = false ->
  truthy_opt (Args.branch_name args) = true ->
  _resolve_branch_id requests_get fuel args = Some (Return r) ->
  truthy r = false ->
  main_payload requests_get fuel args =
  Some (let+ payload :=
          _fetch_validator_payload requests_get (set_branch_name None args) in
        Return (["No matching Omni branch found for '"
                 +:+ format_opt (Args.branch_name args) +:+ "', using default"],
                payload)) /\
  forall payload,
    _fetch_validator_payload requests_get (set_branch_name None args)
      = Return payload ->
    exists request,
      Response.json (requests_get request) = Json payload /\
      dict_lookup "branch_id" (Request.params request) = None.
Proof.
  intros Hvalid Hid Hname Hres Hr. split.
  - unfold main_payload. by rewrite Hvalid, Hres, Hr, Hname.
  - intros payload. unfold _fetch_validator_payload.
    cbn [set_branch_name Args.branch_id Args.user_id]. rewrite Hid.
    destruct (base_of _) as [base | e]; cbn [obind]; [| discriminate].
    match goal with
    | |- context [requests_get ?req] =>
        destruct (Response.ok (requests_get req)) eqn:Hok; cbn [negb];
        [| discriminate];
        destruct (Response.json (requests_get req)) eqn:Hjson; [| discriminate];
        intros [= <-]; exists req; split; [exact Hjson |]
    end.
    cbn [Request.params]. by destruct (truthy_opt (Args.user_id args)).
Qed.

End MainPayload.

(** A server whose only page lists the branch without an [id]. *)
Lemma unknown_branch_falls_back_witness :
  let args :=
    Args.Build (Some "https://omni.example/") (Some "m1") (Some "k3y") None
               VNone (Some "dev") "Authorization" "Bearer" None 60
               "h.json" "h.json" "r.json" None false in
  let server (request : Request.t) :=
    Response.Build true 200 ""
      (Json (VDict [("records",
                     VList [VDict [("modelKind", VStr "BRANCH");
                                   ("baseModelId", VStr "m1");
                                   ("name", VStr "dev")]]);
                    ("issues", VList [VStr "stale filter"])])) in
  exists payload,
    main_payload server 1 args =
    Some (Return (["No matching Omni branch found for 'dev', using default"],
                  payload)).
Proof.
  intros args server.
  destruct (unknown_branch_falls_back server 1 args VNone
              eq_refl eq_refl eq_refl eq_refl eq_refl) as [H _].
  eexists. rewrite H. reflexivity.
Defined.

Lemma lookup_first_match_witness :
  let args :=
    Args.Build (Some "https://omni.example/") (Some "m1") (Some "k3y") None
               VNone (Some "dev") "Authorization" "Bearer" None 60
               "h.json" "h.json" "r.json" None false in
  let other := [("modelKind", VStr "SHARED"); ("name", VStr "dev"); ("id", VStr "x")] in
  let branch := [("modelKind", VStr "BRANCH"); ("baseModelId", VStr "m1");
                 ("name", VStr "dev"); ("id", VStr "b-17")] in
  let server (request : Request.t) :=
    Response.Build true 200 ""
      (Json (VDict [("records", VList [VDict other; VDict branch]);
                    ("pageInfo", VDict [("nextCursor", VStr "c2")])])) in
  _resolve_branch_id server 1 args = Some (Return (VStr "b-17")).
Proof.
  intros args other branch server.
  refine (lookup_first_match server args "https://omni.example/"
            [("records", VList [VDict other; VDict branch]);
             ("pageInfo", VDict [("nextCursor", VStr "c2")])]
            branch [VDict other] [] 0
            eq_refl eq_refl eq_refl eq_refl eq_refl eq_refl _ eq_refl).
  apply Forall_cons. split; [| apply Forall_nil_2]. by exists other.
Defined.

Lemma lookup_never_ends_witness :
  let args :=
    Args.Build (Some "https://omni.example") (Some "m1") (Some "k3y") None
               VNone (Some "dev") "Authorization" "Bearer" None 60
               "h.json" "h.json" "r.json" None false in
  let server (request : Request.t) :=
    Response.Build true 200 ""
      (Json (VDict [("records", VList []);
                    ("pageInfo", VDict [("nextCursor", VStr "again")])])) in
  (forall request, page_goes_on args (server request)) /\
  _resolve_branch_id server 1000 args = None.
Proof.
  intros args server.
  assert (H : forall request, page_goes_on args (server request)).
  { intros request. split; [reflexivity |].
    exists [("records", VList []);
            ("pageInfo", VDict [("nextCursor", VStr "again")])],
           [], [("nextCursor", VStr "again")], (VStr "again").
    repeat split. apply Forall_nil_2. }
  split; [exact H |].
  exact (lookup_never_ends server args "https://omni.example" 1000
           eq_refl eq_refl eq_refl H).
Defined.

(** A last page whose [pageInfo] is [null]. *)
Lemma lookup_failures_witness :
  let args :=
    Args.Build (Some "https://omni.example") (Some "m1") (Some "k3y") None
               VNone (Some "dev") "Authorization" "Bearer" None 60
               "h.json" "h.json" "r.json" None false in
  let server (request : Request.t) :=
    Response.Build true 200 ""
      (Json (VDict [("records", VList []); ("pageInfo", VNone)])) in
  _resolve_branch_id server 1 args = Some (Raised (Builtin AttributeError)).
Proof.
  intros args server.
  refine (proj2 (proj2 (lookup_failures server args "https://omni.example" 0
                          eq_refl eq_refl eq_refl))
            [("records", VList []); ("pageInfo", VNone)] [] VNone
            eq_refl eq_refl eq_refl _ eq_refl eq_refl).
  apply Forall_nil_2.
Defined.

(** ** Content without issues *)




